(** * Symptom checker: validation of the model reply

    Shallow embedding of [src/main.py]: the constants [DISEASES],
    [ALLOWED_ZONES] and [ZONE_LABELS], the function
    [classify_with_gemini] (model call, JSON parse with the code-fence
    fallback, required-key check, disease and zone clamp) and the
    handler [analyze] of POST /analyze.

    A Python [str] is a sequence of Unicode code points and is modelled
    as [list N].  The functions of the Python library that the source
    calls ([str.strip], [str.replace], [in] on strings, [json.loads])
    are modelled by executable definitions of their documented
    behaviour. *)

From Stdlib Require Import NArith ZArith String Ascii List Lia.
From stdpp Require Import base option list gmap.

Set Warnings "-register-all".
Local Open Scope N_scope.

(** ** Python strings *)

Abbreviation str := (list N).

(** Code points of a UTF-8 byte sequence; used to write the literals of
    the source. *)
Fixpoint utf8_decode (bs : list N) : str :=
  match bs with
  | [] => []
  | b :: r =>
    if b <? 0x80 then b :: utf8_decode r
    else if b <? 0xE0 then
      match r with
      | b1 :: r' => ((b - 0xC0) * 64 + (b1 - 0x80)) :: utf8_decode r'
      | _ => []
      end
    else if b <? 0xF0 then
      match r with
      | b1 :: b2 :: r' =>
        ((b - 0xE0) * 4096 + (b1 - 0x80) * 64 + (b2 - 0x80)) :: utf8_decode r'
      | _ => []
      end
    else
      match r with
      | b1 :: b2 :: b3 :: r' =>
        ((b - 0xF0) * 262144 + (b1 - 0x80) * 4096 + (b2 - 0x80) * 64
         + (b3 - 0x80)) :: utf8_decode r'
      | _ => []
      end
  end.

Definition py (s : string) : str :=
  utf8_decode (map N_of_ascii (list_ascii_of_string s)).

(** A literal that contains double quotes is written with single quotes
    in their place. *)
Definition dq (s : string) : str :=
  map (fun c => if c =? 39 then 34 else c) (py s).

(** [str.isspace] on one character. *)
Definition isspace (c : N) : bool :=
  ((9 <=? c) && (c <=? 13)) || ((28 <=? c) && (c <=? 32))
  || (c =? 0x85) || (c =? 0xA0) || (c =? 0x1680)
  || ((0x2000 <=? c) && (c <=? 0x200A))
  || (c =? 0x2028) || (c =? 0x2029) || (c =? 0x202F) || (c =? 0x205F)
  || (c =? 0x3000).

Fixpoint lstrip (s : str) : str :=
  match s with
  | [] => []
  | c :: r => if isspace c then lstrip r else s
  end.

(** [s.rstrip()]: a whitespace character is dropped when nothing is
    left of the text after it. *)
Fixpoint rstrip (s : str) : str :=
  match s with
  | [] => []
  | c :: r =>
    match rstrip r with
    | [] => if isspace c then [] else [c]
    | r' => c :: r'
    end
  end.

(** [s.strip()] *)
Definition strip (s : str) : str := rstrip (lstrip s).

(** [s.startswith(p)] *)
Fixpoint startswith (p s : str) : bool :=
  match p, s with
  | [], _ => true
  | _ :: _, [] => false
  | a :: p', b :: s' => (a =? b) && startswith p' s'
  end.

(** [p in s] for two strings: [p] occurs in [s] as a substring. *)
Fixpoint occurs (p s : str) : bool :=
  startswith p s ||
  match s with
  | [] => false
  | _ :: s' => occurs p s'
  end.

(** The scan of [s.replace(old, new)] for a non-empty [old]: occurrences
    are taken from the left and do not overlap; [skip] counts the
    characters of the current occurrence that are still to be passed. *)
Fixpoint replace_from (old new : str) (skip : nat) (s : str) : str :=
  match s with
  | [] => []
  | c :: s' =>
    match skip with
    | S k => replace_from old new k s'
    | O =>
      if startswith old s
      then new ++ replace_from old new (length old - 1) s'
      else c :: replace_from old new 0 s'
    end
  end.

(** [s.replace(old, new)]; an empty [old] matches before every character
    and at the end. *)
Definition replace (old new s : str) : str :=
  match old with
  | [] => new ++ flat_map (fun c => c :: new) s
  | _ :: _ => replace_from old new 0 s
  end.

(** ** JSON values and [json.loads]

    The values [json.loads] builds: [None], [bool], [int], [float],
    [str], [list] and [dict].  A float is kept as the text it was read
    from (the constants NaN, Infinity and -Infinity included); a dict is
    a finite map, so that a repeated key keeps its last value.  The
    decoder is the default one (strict strings, no hooks); the limits of
    an interpreter (depth of recursion, number of digits of an integer)
    are left out. *)

Inductive json : Type :=
| JNull
| JBool (b : bool)
| JInt (z : Z)
| JFloat (lexeme : str)
| JStr (s : str)
| JList (l : list json)
| JDict (d : gmap str json).

Definition json_ws (c : N) : bool :=
  (c =? 32) || (c =? 9) || (c =? 10) || (c =? 13).

Fixpoint skip_ws (s : str) : str :=
  match s with
  | [] => []
  | c :: r => if json_ws c then skip_ws r else s
  end.

Definition isdigit (c : N) : bool := (48 <=? c) && (c <=? 57).

Definition hexval (c : N) : option N :=
  if isdigit c then Some (c - 48)
  else if (97 <=? c) && (c <=? 102) then Some (c - 87)
  else if (65 <=? c) && (c <=? 70) then Some (c - 55)
  else None.

(** The four hexadecimal digits of a [\uXXXX] escape. *)
Definition hex4 (s : str) : option N :=
  match s with
  | a :: b :: c :: d :: _ =>
    match hexval a, hexval b, hexval c, hexval d with
    | Some x, Some y, Some z, Some w =>
      Some (((x * 16 + y) * 16 + z) * 16 + w)
    | _, _, _, _ => None
    end
  | _ => None
  end.

(** The one-character escapes: quote, backslash, slash, b, f, n, r, t. *)
Definition unescape (e : N) : option N :=
  if e =? 34 then Some 34
  else if e =? 92 then Some 92
  else if e =? 47 then Some 47
  else if e =? 98 then Some 8
  else if e =? 102 then Some 12
  else if e =? 110 then Some 10
  else if e =? 114 then Some 13
  else if e =? 116 then Some 9
  else None.

Definition push (c : N) (o : option (str * str)) : option (str * str) :=
  match o with
  | Some (t, rest) => Some (c :: t, rest)
  | None => None
  end.

(** The decoder's [scanstring] in strict mode, started after the opening
    quote: the decoded string and the text after the closing quote. *)
Fixpoint scanstring (s : str) : option (str * str) :=
  match s with
  | [] => None
  | c :: r =>
    if c =? 34 then Some ([], r)
    else if c =? 92 then
      match r with
      | [] => None
      | e :: r1 =>
        if e =? 117 then
          match hex4 r1, r1 with
          | Some uni, _ :: _ :: _ :: _ :: r2 =>
            let lone := push uni (scanstring r2) in
            if (0xD800 <=? uni) && (uni <=? 0xDBFF) then
              match r2 with
              | b :: u :: r3 =>
                if (b =? 92) && (u =? 117) then
                  match hex4 r3, r3 with
                  | Some uni2, _ :: _ :: _ :: _ :: r4 =>
                    if (0xDC00 <=? uni2) && (uni2 <=? 0xDFFF)
                    then push (0x10000 + N.lor (N.shiftl (uni - 0xD800) 10)
                                               (uni2 - 0xDC00))
                              (scanstring r4)
                    else lone
                  | _, _ => None
                  end
                else lone
              | _ => lone
              end
            else lone
          | _, _ => None
          end
        else
          match unescape e with
          | Some ch => push ch (scanstring r1)
          | None => None
          end
      end
    else if c <? 32 then None
    else push c (scanstring r)
  end.

Fixpoint span_digits (s : str) : str * str :=
  match s with
  | [] => ([], [])
  | c :: r =>
    if isdigit c
    then let (ds, rest) := span_digits r in (c :: ds, rest)
    else ([], s)
  end.

(** The three groups of the decoder's number pattern: an optional minus
    sign and either a single 0 or a digit 1-9 followed by digits; an
    optional dot followed by one or more digits; an optional e or E, an
    optional sign and one or more digits. *)
Definition match_unsigned (sign s : str) : option (str * str) :=
  match s with
  | [] => None
  | c :: r =>
    if c =? 48 then Some (sign ++ [c], r)
    else if isdigit c
    then let (ds, rest) := span_digits r in Some (sign ++ c :: ds, rest)
    else None
  end.

Definition match_integer (s : str) : option (str * str) :=
  match s with
  | [] => None
  | c :: r => if c =? 45 then match_unsigned [c] r else match_unsigned [] s
  end.

Definition match_frac (s : str) : str * str :=
  match s with
  | [] => ([], s)
  | c :: r =>
    if c =? 46 then
      match span_digits r with
      | ([], _) => ([], s)
      | (ds, rest) => (c :: ds, rest)
      end
    else ([], s)
  end.

Definition match_exp (s : str) : str * str :=
  match s with
  | [] => ([], s)
  | c :: r =>
    if (c =? 101) || (c =? 69) then
      match r with
      | [] => ([], s)
      | sg :: r' =>
        if (sg =? 43) || (sg =? 45) then
          match span_digits r' with
          | ([], _) => ([], s)
          | (ds, rest) => (c :: sg :: ds, rest)
          end
        else
          match span_digits r with
          | ([], _) => ([], s)
          | (ds, rest) => (c :: ds, rest)
          end
      end
    else ([], s)
  end.

Definition digits_value (ds : str) : N :=
  fold_left (fun acc d => acc * 10 + (d - 48)) ds 0.

(** [int(lexeme)] for the text of the integer group. *)
Definition parse_int (lexeme : str) : Z :=
  match lexeme with
  | [] => 0%Z
  | c :: ds =>
    if c =? 45 then (- Z.of_N (digits_value ds))%Z
    else Z.of_N (digits_value lexeme)
  end.

Definition match_number (s : str) : option (json * str) :=
  match match_integer s with
  | None => None
  | Some (integer, r1) =>
    let (frac, r2) := match_frac r1 in
    let (exp, r3) := match_exp r2 in
    match frac, exp with
    | [], [] => Some (JInt (parse_int integer), r3)
    | _, _ => Some (JFloat (integer ++ frac ++ exp), r3)
    end
  end.

(** A named constant at the head of [s]. *)
Definition constant (name : str) (v : json) (s : str) : option (json * str) :=
  if startswith name s then Some (v, drop (length name) s) else None.

(** The decoder's [scan_once], [JSONObject] and [JSONArray].  [fuel]
    bounds the number of nested calls; [json_loads] gives one unit per
    character, which is never exhausted (see [scan_once_fuel]). *)
Fixpoint scan_once (fuel : nat) (s : str) : option (json * str) :=
  match fuel with
  | O => None
  | S f =>
    match s with
    | [] => None
    | c :: r =>
      if c =? 34 then
        match scanstring r with
        | Some (t, rest) => Some (JStr t, rest)
        | None => None
        end
      else if c =? 123 then
        match skip_ws r with
        | [] => None
        | c' :: r' =>
          if c' =? 125 then Some (JDict ∅, r')
          else parse_members f ∅ (skip_ws r)
        end
      else if c =? 91 then
        match skip_ws r with
        | [] => None
        | c' :: r' =>
          if c' =? 93 then Some (JList [], r')
          else parse_elems f [] (skip_ws r)
        end
      else
        match constant (py "null") JNull s with
        | Some res => Some res
        | None =>
        match constant (py "true") (JBool true) s with
        | Some res => Some res
        | None =>
        match constant (py "false") (JBool false) s with
        | Some res => Some res
        | None =>
        match match_number s with
        | Some res => Some res
        | None =>
        match constant (py "NaN") (JFloat (py "NaN")) s with
        | Some res => Some res
        | None =>
        match constant (py "Infinity") (JFloat (py "Infinity")) s with
        | Some res => Some res
        | None => constant (py "-Infinity") (JFloat (py "-Infinity")) s
        end end end end end end
    end
  end

(** The members of an object, from the opening quote of a key on. *)
with parse_members (fuel : nat) (d : gmap str json) (s : str)
  : option (json * str) :=
  match fuel with
  | O => None
  | S f =>
    match s with
    | [] => None
    | q :: r =>
      if q =? 34 then
        match scanstring r with
        | None => None
        | Some (key, r1) =>
          match skip_ws r1 with
          | [] => None
          | colon :: r2 =>
            if colon =? 58 then
              match scan_once f (skip_ws r2) with
              | None => None
              | Some (v, r3) =>
                match skip_ws r3 with
                | [] => None
                | c :: r4 =>
                  if c =? 125 then Some (JDict (<[key:=v]> d), r4)
                  else if c =? 44
                  then parse_members f (<[key:=v]> d) (skip_ws r4)
                  else None
                end
              end
            else None
          end
        end
      else None
    end
  end

(** The elements of an array, from the first character of a value on;
    [acc] holds the elements read so far. *)
with parse_elems (fuel : nat) (acc : list json) (s : str)
  : option (json * str) :=
  match fuel with
  | O => None
  | S f =>
    match scan_once f s with
    | None => None
    | Some (v, r1) =>
      match skip_ws r1 with
      | [] => None
      | c :: r2 =>
        if c =? 93 then Some (JList (acc ++ [v]), r2)
        else if c =? 44 then parse_elems f (acc ++ [v]) (skip_ws r2)
        else None
      end
    end
  end.

(** [json.loads(s)]: one value between optional JSON whitespace;
    [None] stands for the decoder raising [JSONDecodeError]. *)
Definition json_loads (s : str) : option json :=
  let s0 := skip_ws s in
  match scan_once (length s0) s0 with
  | None => None
  | Some (v, rest) =>
    match skip_ws rest with
    | [] => Some v
    | _ :: _ => None
    end
  end.

(** ** Exceptions, output and the values of the service *)

Inductive exn : Type :=
| RuntimeError (msg : str)
| JSONDecodeError
| TypeError
| KeyError (key : str)
| ValidationError.

(** What a call leaves behind: a [print] with its arguments, or a
    [logger.info] line, kept as the fixed text and the value formatted
    after it. *)
Inductive event : Type :=
| Print (args : list str)
| LogInfo (prefix : str) (value : json).

Inductive outcome (A : Type) : Type :=
| Return (a : A)
| Raise (e : exn).
Arguments Return {A} a.
Arguments Raise {A} e.

(** Computations that write events and may raise. *)
Definition M (A : Type) : Type := (list event * outcome A)%type.

Definition ret {A} (a : A) : M A := ([], Return a).
Definition raise {A} (e : exn) : M A := ([], Raise e).
Definition emit (ev : event) : M unit := ([ev], Return tt).
Definition lift {A} (o : outcome A) : M A := ([], o).

Definition bind {A B} (m : M A) (k : A -> M B) : M B :=
  match m with
  | (evs, Return a) => let (evs', o) := k a in (evs ++ evs', o)
  | (evs, Raise e) => (evs, Raise e)
  end.

#[global] Instance M_ret : MRet M := @ret.
#[global] Instance M_bind : MBind M := fun A B k m => bind m k.

Definition events {A} (m : M A) : list event := fst m.
Definition outcome_of {A} (m : M A) : outcome A := snd m.

(** The reply of the external model call: the text of the response, or
    the exception the call (or reading its text) raised, as printed. *)
Inductive gemini_reply : Type :=
| GeminiText (text : str)
| GeminiError (cause : str).

(** [v == s] for a JSON value and a string: only a string can be equal
    to a string. *)
Definition eq_str (v : json) (s : str) : bool :=
  match v with
  | JStr t => bool_decide (t = s)
  | _ => false
  end.

(** [v in l] for a list of strings. *)
Definition in_strs (v : json) (l : list str) : bool := existsb (eq_str v) l.

(** [key in data]: a key of a dict, an element of a list, a substring of
    a string; any other value is not iterable. *)
Definition contains (key : str) (data : json) : outcome bool :=
  match data with
  | JDict d => Return (bool_decide (is_Some (d !! key)))
  | JList l => Return (existsb (fun v => eq_str v key) l)
  | JStr s => Return (occurs key s)
  | _ => Raise TypeError
  end.

(** [data[key]] with a string key: only a dict can be indexed by it. *)
Definition getitem (data : json) (key : str) : outcome json :=
  match data with
  | JDict d =>
    match d !! key with
    | Some v => Return v
    | None => Raise (KeyError key)
    end
  | _ => Raise TypeError
  end.

(** ** The constants of the source *)

Definition DISEASES : list str :=
  [ py "Viral Fever (without warning signs)";
    py "Gastritis / Acid Reflux";
    py "Migraine / Tension Headache";
    py "Skin Infection / Cellulitis (mild)";
    py "Moderate Hypertension (BP 140–160/90–100)";
    py "Pregnancy Complications (Bleeding / Pain)";
    py "Severe Dehydration";
    py "Snake Bite (Suspected)";
    py "Tuberculosis (with cough >2 weeks)";
    py "Seizure / Fits";
    py "Heart Attack";
    py "Unconscious / Coma";
    py "Stroke (CVA)";
    py "Severe Head Injury";
    py "Severe Trauma with Bleeding / Fracture" ].

Definition ALLOWED_ZONES : list str := [ py "Red"; py "Orange"; py "Yellow" ].

Definition ZONE_LABELS : gmap str str :=
  <[ py "Yellow" := py "Zone: 🟡 Yellow – कमी धोक्याची पातळी" ]>
  (<[ py "Orange" := py "Zone: 🟠 Orange – मध्यम धोक्याची पातळी" ]>
  (<[ py "Red" := py "Zone: 🔴 Red – उच्च धोक्याची पातळी" ]> ∅)).

Definition REQUIRED_KEYS : list str :=
  [ py "disease"; py "zone"; py "symptoms_line"; py "action_line" ].

Definition DEFAULT_DISEASE : str := py "Viral Fever (without warning signs)".
Definition DEFAULT_ZONE : str := py "Yellow".

Definition FENCE_JSON : str := py "```json".
Definition FENCE : str := py "```".

(** ** [classify_with_gemini] *)

(** The text the fallback parses: both markers replaced by nothing, then
    stripped. *)
Definition cleaned (raw_text : str) : str :=
  strip (replace FENCE [] (replace FENCE_JSON [] raw_text)).

(** "Try to parse JSON": the direct parse, and on any exception the
    parse of the cleaned text, whose exception is not caught. *)
Definition parse_reply (raw_text : str) : M json :=
  match json_loads raw_text with
  | Some data => ret data
  | None =>
    match json_loads (cleaned raw_text) with
    | Some data => ret data
    | None => raise JSONDecodeError
    end
  end.

(** "Validate keys": the loop over the four keys, left at the first key
    that is not in [data]. *)
Fixpoint check_keys (keys : list str) (data : json) : M unit :=
  match keys with
  | [] => ret tt
  | key :: keys' =>
    present ← lift (contains key data);
    if negb present
    then raise (RuntimeError (py "Missing key in Gemini response: " ++ key))
    else check_keys keys' data
  end.

(** Key check, clamp of disease and zone, and the returned dict. *)
Definition validate (data : json) : M (gmap str json) :=
  check_keys REQUIRED_KEYS data;;
  disease ← lift (getitem data (py "disease"));
  zone ← lift (getitem data (py "zone"));
  let disease :=
    if negb (in_strs disease DISEASES) then JStr DEFAULT_DISEASE else disease in
  let zone :=
    if negb (in_strs zone ALLOWED_ZONES) then JStr DEFAULT_ZONE else zone in
  symptoms_line ← lift (getitem data (py "symptoms_line"));
  action_line ← lift (getitem data (py "action_line"));
  ret (<[ py "action_line" := action_line ]>
       (<[ py "symptoms_line" := symptoms_line ]>
       (<[ py "zone" := zone ]>
       (<[ py "disease" := disease ]> ∅)))).

Record AnalyzeRequest : Type := { complaint : str }.

Record AnalyzeResponse : Type := {
  zone : str;
  zone_label : str;
  disease : str;
  patient_symptoms_line : str;
  patient_action_line : str
}.

(** [ZONE_LABELS.get(zone, "Zone: " + zone)] for a zone that is a
    string. *)
Definition zone_label_of (zone : str) : str :=
  default (py "Zone: " ++ zone) (ZONE_LABELS !! zone).

(** The same lookup for any value: a list or a dict is not hashable; for
    another value that is not a string the default is the formatted
    value, which [new_AnalyzeResponse] never lets through, and is left
    out. *)
Definition ZONE_LABELS_get (zone : json) : outcome (option str) :=
  match zone with
  | JStr z => Return (Some (zone_label_of z))
  | JList _ | JDict _ => Raise TypeError
  | _ => Return None
  end.

(** Construction of the response model: each of its fields is declared
    [str] and is validated. *)
Definition new_AnalyzeResponse (zone : json) (zone_label : option str)
    (disease symptoms_line action_line : json) : outcome AnalyzeResponse :=
  match zone, zone_label, disease, symptoms_line, action_line with
  | JStr z, Some l, JStr d, JStr s, JStr a =>
    Return {| zone := z; zone_label := l; disease := d;
              patient_symptoms_line := s; patient_action_line := a |}
  | _, _, _, _, _ => Raise ValidationError
  end.

Section Service.

(** The model call, from the complaint (from which the prompt is
    built) to the reply. *)
Variable generate_content : str -> gemini_reply.

Definition call_gemini (text : str) : M str :=
  match generate_content text with
  | GeminiText t => ret (strip t)
  | GeminiError cause =>
    emit (Print [py "Gemini API error:"; cause]);;
    raise (RuntimeError (py "Gemini call failed"))
  end.

Definition classify_with_gemini (text : str) : M (gmap str json) :=
  raw_text ← call_gemini text;
  data ← parse_reply raw_text;
  validate data.

(** The handler of POST /analyze; an exception that leaves it is a
    failed request. *)
Definition analyze (req : AnalyzeRequest) : M AnalyzeResponse :=
  emit (Print [py "bhavana"]);;
  emit (LogInfo (py "User Complaint: ") (JStr (complaint req)));;
  result ← classify_with_gemini (complaint req);
  z ← lift (getitem (JDict result) (py "zone"));
  emit (LogInfo (py "AI Response Zone: ") z);;
  s ← lift (getitem (JDict result) (py "patient_symptoms_line"));
  emit (LogInfo (py "Symptoms Line: ") s);;
  zone ← lift (getitem (JDict result) (py "zone"));
  zone_label ← lift (ZONE_LABELS_get zone);
  disease ← lift (getitem (JDict result) (py "disease"));
  symptoms_line ← lift (getitem (JDict result) (py "symptoms_line"));
  action_line ← lift (getitem (JDict result) (py "action_line"));
  lift (new_AnalyzeResponse zone zone_label disease symptoms_line
                            action_line).

End Service.

(** ** Definitions used in the statements *)

(** The dict [validate] returns, from the values under the four keys. *)
Definition clamped (vd vz vs va : json) : gmap str json :=
  <[ py "action_line" := va ]>
  (<[ py "symptoms_line" := vs ]>
  (<[ py "zone" :=
        if negb (in_strs vz ALLOWED_ZONES) then JStr DEFAULT_ZONE else vz ]>
  (<[ py "disease" :=
        if negb (in_strs vd DISEASES) then JStr DEFAULT_DISEASE else vd ]> ∅))).

(** The reply of the endpoint example of the specification. *)
Definition HEART_ATTACK_REPLY : str :=
  dq "{'disease':'Heart Attack','zone':'Red','symptoms_line':'X','action_line':'Y'}".

(** A reply wrapped in a Markdown code fence tagged json. *)
Definition fenced (s : str) : str := FENCE_JSON ++ [10] ++ s ++ [10] ++ FENCE.

(** Replies on which the statements are tried: one with a disease and a
    zone outside the lists, one with a marker inside a string value, one
    with two keys missing, and one that is prose. *)
Definition FLU_REPLY : str :=
  dq "{'disease':'Flu','zone':'Critical','symptoms_line':'X','action_line':'Y'}".

Definition MARKER_REPLY : str :=
  dq "{'disease':'Heart Attack','zone':'Red','symptoms_line':'a```b','action_line':'Y'}".

Definition INCOMPLETE_REPLY : str :=
  dq "{'disease':'Heart Attack','symptoms_line':'X'}".

Definition PROSE_REPLY : str := py "The patient should rest and drink water.".

(** The dict of a reply with all four keys. *)
Definition reply_dict (vd vz vs va : json) : gmap str json :=
  <[ py "action_line" := va ]>
  (<[ py "symptoms_line" := vs ]>
  (<[ py "zone" := vz ]>
  (<[ py "disease" := vd ]> ∅))).

(** Characters with which a number could go on. *)
Definition number_char (c : N) : bool :=
  isdigit c || (c =? 46) || (c =? 101) || (c =? 69).

(** A text before which every value ends: it is empty or starts with a
    character that no number goes on with. *)
Definition stops (rest : str) : Prop :=
  match rest with
  | [] => True
  | c :: _ => number_char c = false
  end.

Definition no_digit_head (rest : str) : Prop :=
  match rest with
  | [] => True
  | c :: _ => isdigit c = false
  end.

Definition nonspace (c : N) : bool := negb (isspace c).

(** A text is solid when it starts with a character that is not
    whitespace and does not end with whitespace. *)
Definition solid (c : str) : Prop :=
  exists h t, c = h :: t /\ isspace h = false /\ rstrip c = c.

(** What the locality lemma says of [scan_once], of the members of an
    object and of the elements of an array, for one amount of fuel: the
    result is read from a prefix [c] of the text, and is read again from
    [c] before any other remaining text, with any fuel that covers [c]. *)
Definition scan_local_at (F : nat) : Prop :=
  forall x v rest,
    scan_once F x = Some (v, rest) ->
    exists c, x = c ++ rest /\ solid c /\
      forall F' rest', (length c <= F')%nat -> stops rest' ->
                       scan_once F' (c ++ rest') = Some (v, rest').

Definition members_local_at (F : nat) : Prop :=
  forall d x v rest,
    parse_members F d x = Some (v, rest) ->
    exists c, x = 34 :: c ++ 125 :: rest /\
      forall F' rest', (length c + 2 <= F')%nat ->
                       parse_members F' d (34 :: c ++ 125 :: rest') =
                       Some (v, rest').

Definition elems_local_at (F : nat) : Prop :=
  forall acc x v rest,
    parse_elems F acc x = Some (v, rest) ->
    exists h t, x = h :: t ++ 93 :: rest /\
      forall F' rest', (length t + 2 <= F')%nat ->
                       parse_elems F' acc (h :: t ++ 93 :: rest') =
                       Some (v, rest').

(** ** The prompt *)

(** A literal that contains double quotes and apostrophes is written
    with a circumflex for each double quote. *)
Definition qq (s : string) : str :=
  map (fun c => if c =? 94 then 34 else c) (py s).

(** [sep.join(l)] *)
Fixpoint join (sep : str) (l : list str) : str :=
  match l with
  | [] => []
  | [x] => x
  | x :: r => x ++ sep ++ join sep r
  end.

(** The text of a list of strings as an f-string formats it, for strings
    of letters: the strings in apostrophes, separated by a comma and a
    space, in square brackets. *)
Definition repr_strs (l : list str) : str :=
  py "[" ++ join (py ", ") (map (fun s => [39] ++ s ++ [39]) l) ++ py "]".

Definition GEMINI_MODEL_NAME : str := py "gemini-2.5-flash".

(** The f-string [system_instructions]: the text before and after the
    one interpolated value, [ALLOWED_ZONES]. *)
Definition SYSTEM_INSTRUCTIONS_HEAD : str := qq "
You are an AI symptom checker triage assistant.

The patient speaks Marathi. Respond in SIMPLE Marathi for all patient-facing text.

You must:
1) Read the patient's free-text complaint (in Marathi).
2) Choose exactly ONE disease from the following list (no other disease allowed):

   1. Viral Fever (without warning signs) – viral fever with mild to moderate symptoms, no danger signs.
   2. Gastritis / Acid Reflux – burning in chest or upper abdomen, acidity, related to food.
   3. Migraine / Tension Headache – repeated or severe headache, sometimes with vomiting or light sensitivity.
   4. Skin Infection / Cellulitis (mild) – local redness, swelling, pain, mild fever.
   5. Moderate Hypertension (BP 140–160/90–100) – raised blood pressure with mild symptoms like headache, giddiness.
   6. Pregnancy Complications (Bleeding / Pain) – pregnant woman with vaginal bleeding or abdominal pain.
   7. Severe Dehydration – very weak, dry mouth, very little urine, dizziness, especially with diarrhea or vomiting.
   8. Snake Bite (Suspected) – history of snake bite or strong suspicion, with or without swelling.
   9. Tuberculosis (with cough >2 weeks) – cough more than 2 weeks, weight loss, night sweats.
   10. Seizure / Fits – episode of convulsions, loss of control, tongue bite, post-ictal confusion.
   11. Heart Attack (Myocardial Infarction) – severe chest pain, chest heaviness, breathlessness, sweating, radiating pain.
   12. Unconscious / Coma – not responding, very drowsy, not following commands.
   13. Stroke (CVA) – sudden weakness of one side, facial droop, slurred speech, difficulty walking.
   14. Severe Head Injury – head trauma with loss of consciousness, vomiting, confusion, bleeding.
   15. Severe Trauma with Bleeding / Fracture – major accident, heavy bleeding, suspected fracture, limb deformity.

3) Decide the triage zone:
   - ^Red^    = Emergency / life threatening → needs immediate ER / 108 call.
   - ^Orange^ = Urgent (high risk but not immediate death) → needs doctor same day / within few hours.
   - ^Yellow^ = Mild / stable → can manage at home + OPD visit if needed.

You MUST output:

- ^disease^: exactly one string from the above list.
- ^zone^: exactly one of: ".

Definition SYSTEM_INSTRUCTIONS_TAIL : str := qq ".
- ^symptoms_line^: ONE short Marathi sentence summarizing the main symptoms.
- ^action_line^: ONE or TWO short Marathi sentences telling the patient what to do now
  (ER / call 108 / go to hospital / home care + when to see doctor).

IMPORTANT:
- For Red zone, clearly tell the patient to go to emergency / call 108.
- For Orange zone, clearly tell to see a doctor or hospital as soon as possible.
- For Yellow zone, focus on home care + OPD visit if not improving.

OUTPUT FORMAT:
Return ONLY valid JSON with keys:
  disease, zone, symptoms_line, action_line

No extra text, no explanation, no markdown, no backticks.
".

Definition system_instructions : str :=
  SYSTEM_INSTRUCTIONS_HEAD ++ repr_strs ALLOWED_ZONES ++ SYSTEM_INSTRUCTIONS_TAIL.

Definition user_context (text : str) : str :=
  py "
PATIENT COMPLAINT (Marathi):
" ++ text ++ py "
".

(** [prompt = system_instructions + "\n" + user_context] *)
Definition build_prompt (text : str) : str :=
  system_instructions ++ [10] ++ user_context text.

(** The model call of the source, for a client that maps a model name
    and the contents sent to the reply. *)
Definition generate_with (client : str -> str -> gemini_reply) (text : str)
  : gemini_reply :=
  client GEMINI_MODEL_NAME (build_prompt text).


(** A reply that names the disease as the prompt lists its item 11. *)
Definition PROMPT_NAME_REPLY : str :=
  dq "{'disease':'Heart Attack (Myocardial Infarction)','zone':'Red','symptoms_line':'X','action_line':'Y'}".

(** ** Further definitions used in the statements *)

(** A reply wrapped in a code fence without a tag. *)
Definition plain_fenced (s : str) : str := FENCE ++ [10] ++ s ++ [10] ++ FENCE.

(** A reply that is a JSON list of the four key names. *)
Definition KEY_LIST_REPLY : str :=
  dq "['disease', 'zone', 'symptoms_line', 'action_line']".

(** A reply with a key more than the four, a number as symptoms line and
    a list as action line. *)
Definition EXTRA_KEY_REPLY : str :=
  dq "{'disease':'Stroke (CVA)','zone':'Orange','symptoms_line':7,'action_line':['a'],'confidence':0.9}".

(** ** Tactics *)

Ltac str_neq := let H := fresh in intros H; vm_compute in H; discriminate H.

Ltac chars :=
  unfold number_char, nonspace, isspace, isdigit, json_ws in *;
  repeat (progress
            (rewrite ?negb_true_iff, ?negb_false_iff, ?orb_false_iff,
               ?orb_true_iff, ?andb_true_iff, ?andb_false_iff, ?N.eqb_eq,
               ?N.eqb_neq, ?N.leb_le, ?N.leb_gt, ?N.ltb_lt, ?N.ltb_ge in * ));
  lia.

Ltac eval_eqb :=
  repeat match goal with
         | |- context [?a =? ?b] =>
           let v := eval vm_compute in (a =? b) in
           match v with
           | true => change (a =? b) with true
           | false => change (a =? b) with false
           end
         end;
  cbv iota.

Ltac norm := repeat (progress (cbn [app]; repeat rewrite <- app_assoc)).

Ltac len :=
  repeat (cbn [length] in *;
          match goal with
          | H : context [length (_ ++ _)] |- _ => rewrite length_app in H
          | |- context [length (_ ++ _)] => rewrite length_app
          end);
  cbn [length] in *; lia.


(** * Properties *)

(** ** The monad *)

Lemma outcome_bind_return {A B} (m : M A) (k : A -> M B) a :
  outcome_of m = Return a -> outcome_of (m ≫= k) = outcome_of (k a).
Proof.
  destruct m as [evs o]; simpl; intros ->.
  unfold mbind, M_bind, bind. by destruct (k a).
Qed.

Lemma outcome_bind_raise {A B} (m : M A) (k : A -> M B) e :
  outcome_of m = Raise e -> outcome_of (m ≫= k) = Raise e.
Proof. destruct m as [evs o]; simpl; by intros ->. Qed.

Lemma outcome_bind_inv {A B} (m : M A) (k : A -> M B) b :
  outcome_of (m ≫= k) = Return b ->
  exists a, outcome_of m = Return a /\ outcome_of (k a) = Return b.
Proof.
  destruct m as [evs [a|e]]; unfold mbind, M_bind, bind; simpl.
  - destruct (k a) eqn:E; simpl. intros ->. exists a. by rewrite E.
  - discriminate.
Qed.

Lemma outcome_lift {A} (o : outcome A) : outcome_of (lift o) = o.
Proof. done. Qed.

Lemma outcome_emit ev : outcome_of (emit ev) = Return tt.
Proof. done. Qed.

(** ** Membership tests *)

Lemma in_strs_true v l :
  in_strs v l = true <-> exists s, v = JStr s /\ s ∈ l.
Proof.
  unfold in_strs. rewrite existsb_exists. split.
  - intros (s & Hin & Heq). destruct v; try discriminate.
    apply bool_decide_eq_true in Heq. subst. exists s.
    split; [done | by apply list_elem_of_In].
  - intros (s & -> & Hin). exists s. split; [by apply list_elem_of_In |].
    by apply bool_decide_eq_true.
Qed.

Lemma in_strs_false v l :
  in_strs v l = false <-> forall s, s ∈ l -> v <> JStr s.
Proof.
  rewrite <- not_true_iff_false, in_strs_true. split.
  - intros H s Hin ->. apply H. eauto.
  - intros H (s & -> & Hin). by apply (H s).
Qed.


Lemma ZONE_LABELS_keys z : is_Some (ZONE_LABELS !! z) <-> z ∈ ALLOWED_ZONES.
Proof.
  unfold ZONE_LABELS, ALLOWED_ZONES.
  rewrite !lookup_insert_is_Some, lookup_empty, !elem_of_cons, elem_of_nil.
  split.
  - intros [-> | [_ [-> | [_ [-> | [_ [? ?]]]]]]]; auto; done.
  - intros [-> | [-> | [-> | []]]].
    + do 2 (right; split; [str_neq |]). by left.
    + right. split; [str_neq |]. by left.
    + by left.
Qed.

(** ** The key check *)

Lemma check_keys_events keys data : events (check_keys keys data) = [].
Proof.
  induction keys as [|k keys IH]; [done |]. simpl.
  destruct (contains k data) as [[]|]; simpl; try done.
  unfold mbind, M_bind, bind. simpl.
  destruct (check_keys keys data) as [evs o]. simpl in *. by subst.
Qed.

(** On a dict the loop stops at the first key that is missing. *)
Lemma check_keys_first_missing pre k post d :
  (forall k', k' ∈ pre -> is_Some (d !! k')) ->
  d !! k = None ->
  check_keys (pre ++ k :: post) (JDict d) =
  raise (RuntimeError (py "Missing key in Gemini response: " ++ k)).
Proof.
  intros Hpre Hk. induction pre as [|k0 pre IH]; simpl.
  - rewrite bool_decide_eq_false_2; [done |]. rewrite Hk. by intros [? ?].
  - rewrite bool_decide_eq_true_2 by (apply Hpre; left).
    unfold mbind, M_bind, bind; simpl.
    rewrite IH; [done |]. intros k' Hin. apply Hpre. by right.
Qed.

Lemma check_keys_all_present keys d :
  (forall k, k ∈ keys -> is_Some (d !! k)) ->
  check_keys keys (JDict d) = ret tt.
Proof.
  intros Hall. induction keys as [|k keys IH]; [done |]. simpl.
  rewrite bool_decide_eq_true_2 by (apply Hall; left).
  unfold mbind, M_bind, bind; simpl.
  rewrite IH; [done |]. intros k' Hin. apply Hall. by right.
Qed.

(** Some key of a list is missing: the list splits at the first one. *)
Lemma first_missing_split (keys : list str) (d : gmap str json) :
  (exists k, k ∈ keys /\ d !! k = None) ->
  exists pre k post,
    keys = pre ++ k :: post /\
    (forall k', k' ∈ pre -> is_Some (d !! k')) /\ d !! k = None.
Proof.
  induction keys as [|k0 keys IH]; intros (k & Hin & Hk).
  - by apply elem_of_nil in Hin.
  - destruct (d !! k0) as [v0|] eqn:E0.
    + destruct IH as (pre & k1 & post & -> & Hpre & Hk1).
      { exists k. split; [| done].
        apply elem_of_cons in Hin as [-> | Hin]; [congruence | done]. }
      exists (k0 :: pre), k1, post. split; [done |]. split; [| done].
      intros k' Hin'. apply elem_of_cons in Hin' as [-> | Hin'];
        [by rewrite E0 | by apply Hpre].
    + exists [], k0, keys. split; [done |]. split; [| done].
      intros k' Hin'. by apply elem_of_nil in Hin'.
Qed.

Lemma required_keys_lookup (d : gmap str json) :
  (forall k, k ∈ REQUIRED_KEYS -> is_Some (d !! k)) ->
  exists vd vz vs va,
    d !! py "disease" = Some vd /\ d !! py "zone" = Some vz /\
    d !! py "symptoms_line" = Some vs /\ d !! py "action_line" = Some va.
Proof.
  intros Hkeys. unfold REQUIRED_KEYS in Hkeys.
  destruct (Hkeys (py "disease")) as [vd Hd]; [by left |].
  destruct (Hkeys (py "zone")) as [vz Hz]; [by right; left |].
  destruct (Hkeys (py "symptoms_line")) as [vs Hs]; [by do 2 right; left |].
  destruct (Hkeys (py "action_line")) as [va Ha]; [by do 3 right; left |].
  by exists vd, vz, vs, va.
Qed.

(** ** The validator on a parsed reply *)

Lemma clamped_disease vd vz vs va :
  clamped vd vz vs va !! py "disease" =
  Some (if negb (in_strs vd DISEASES) then JStr DEFAULT_DISEASE else vd).
Proof.
  unfold clamped.
  rewrite !lookup_insert_ne by str_neq. apply lookup_insert_eq.
Qed.

Lemma clamped_zone vd vz vs va :
  clamped vd vz vs va !! py "zone" =
  Some (if negb (in_strs vz ALLOWED_ZONES) then JStr DEFAULT_ZONE else vz).
Proof.
  unfold clamped.
  rewrite !lookup_insert_ne by str_neq. apply lookup_insert_eq.
Qed.

Lemma clamped_symptoms_line vd vz vs va :
  clamped vd vz vs va !! py "symptoms_line" = Some vs.
Proof.
  unfold clamped.
  rewrite !lookup_insert_ne by str_neq. apply lookup_insert_eq.
Qed.

Lemma clamped_action_line vd vz vs va :
  clamped vd vz vs va !! py "action_line" = Some va.
Proof. unfold clamped. apply lookup_insert_eq. Qed.

Lemma clamped_other vd vz vs va k :
  k ∉ REQUIRED_KEYS -> clamped vd vz vs va !! k = None.
Proof.
  intros Hk. unfold clamped.
  rewrite !lookup_insert_ne; [apply lookup_empty | | | |];
    intros <-; apply Hk; unfold REQUIRED_KEYS;
    [by left | by right; left | by do 2 right; left | by do 3 right; left].
Qed.

Lemma getitem_dict d k v : d !! k = Some v -> getitem (JDict d) k = Return v.
Proof. simpl. by intros ->. Qed.

Lemma getitem_return data k v :
  getitem data k = Return v -> exists d, data = JDict d /\ d !! k = Some v.
Proof.
  destruct data; try discriminate. simpl.
  destruct (d !! k) eqn:E; [| discriminate]. intros [= ->]. eauto.
Qed.

(** A dict that has the four keys is validated without an exception and
    without output. *)
Lemma validate_dict d vd vz vs va :
  d !! py "disease" = Some vd ->
  d !! py "zone" = Some vz ->
  d !! py "symptoms_line" = Some vs ->
  d !! py "action_line" = Some va ->
  validate (JDict d) = ret (clamped vd vz vs va).
Proof.
  intros Hd Hz Hs Ha. unfold validate.
  rewrite check_keys_all_present.
  - rewrite (getitem_dict _ _ _ Hd), (getitem_dict _ _ _ Hz),
      (getitem_dict _ _ _ Hs), (getitem_dict _ _ _ Ha). reflexivity.
  - intros k Hk. unfold REQUIRED_KEYS in Hk.
    repeat (apply elem_of_cons in Hk as [-> | Hk]; [by eexists |]).
    by apply elem_of_nil in Hk.
Qed.

(** Whatever [validate] returns was built from a dict with the four
    keys. *)
Lemma validate_return data r :
  outcome_of (validate data) = Return r ->
  exists d vd vz vs va,
    data = JDict d /\
    d !! py "disease" = Some vd /\ d !! py "zone" = Some vz /\
    d !! py "symptoms_line" = Some vs /\ d !! py "action_line" = Some va /\
    r = clamped vd vz vs va.
Proof.
  unfold validate. intros H.
  apply outcome_bind_inv in H as (_ & _ & H).
  apply outcome_bind_inv in H as (vd & Hd & H).
  apply outcome_bind_inv in H as (vz & Hz & H).
  apply outcome_bind_inv in H as (vs & Hs & H).
  apply outcome_bind_inv in H as (va & Ha & H).
  rewrite outcome_lift in Hd, Hz, Hs, Ha.
  apply getitem_return in Hd as (d & -> & Hd).
  apply getitem_return in Hz as (d' & [= <-] & Hz).
  apply getitem_return in Hs as (d' & [= <-] & Hs).
  apply getitem_return in Ha as (d' & [= <-] & Ha).
  injection H as <-. exists d, vd, vz, vs, va. done.
Qed.

Lemma validate_events data : events (validate data) = [].
Proof.
  unfold validate. pose proof (check_keys_events REQUIRED_KEYS data) as Hc.
  destruct (check_keys REQUIRED_KEYS data) as [evs [[]|e]]; simpl in Hc; subst;
    [| done].
  unfold mbind, M_bind, bind at 1. simpl.
  destruct (getitem data (py "disease")); [| done].
  destruct (getitem data (py "zone")); [| done].
  destruct (getitem data (py "symptoms_line")); [| done].
  destruct (getitem data (py "action_line")); done.
Qed.

(** ** Parsing the reply *)

Lemma parse_reply_events raw_text : events (parse_reply raw_text) = [].
Proof.
  unfold parse_reply. destruct (json_loads raw_text); [done |].
  by destruct (json_loads (cleaned raw_text)).
Qed.

Lemma parse_reply_direct raw_text data :
  json_loads raw_text = Some data -> parse_reply raw_text = ret data.
Proof. unfold parse_reply. by intros ->. Qed.

Section ServiceFacts.

Variable generate_content : str -> gemini_reply.

(** With a reply from the model, [classify_with_gemini] is the parse
    of the stripped reply followed by the validation. *)
Lemma classify_outcome text reply :
  generate_content text = GeminiText reply ->
  outcome_of (classify_with_gemini generate_content text) =
  outcome_of (data ← parse_reply (strip reply); validate data).
Proof.
  intros Hg. unfold classify_with_gemini, call_gemini. rewrite Hg.
  by rewrite (outcome_bind_return _ _ (strip reply)).
Qed.

Lemma classify_parsed text reply data :
  generate_content text = GeminiText reply ->
  outcome_of (parse_reply (strip reply)) = Return data ->
  outcome_of (classify_with_gemini generate_content text) =
  outcome_of (validate data).
Proof.
  intros Hg Hp. rewrite (classify_outcome _ _ Hg).
  by apply outcome_bind_return.
Qed.

Lemma classify_return text r :
  outcome_of (classify_with_gemini generate_content text) = Return r ->
  exists reply data,
    generate_content text = GeminiText reply /\
    outcome_of (parse_reply (strip reply)) = Return data /\
    outcome_of (validate data) = Return r.
Proof.
  unfold classify_with_gemini. intros H.
  apply outcome_bind_inv in H as (raw_text & Hc & H).
  apply outcome_bind_inv in H as (data & Hp & H).
  unfold call_gemini in Hc.
  destruct (generate_content text) as [reply|cause] eqn:Hg; [| discriminate].
  injection Hc as <-. eauto.
Qed.

(** The dict [classify_with_gemini] returns has no key
    [patient_symptoms_line], so the handler leaves with [KeyError]
    whenever the classification succeeds. *)
Lemma analyze_after_classify req r :
  outcome_of (classify_with_gemini generate_content (complaint req)) =
    Return r ->
  outcome_of (analyze generate_content req) =
    Raise (KeyError (py "patient_symptoms_line")).
Proof.
  intros Hc. destruct (classify_return _ _ Hc) as (reply & data & _ & _ & Hv).
  apply validate_return in Hv
    as (d & vd & vz & vs & va & -> & _ & _ & _ & _ & ->).
  unfold analyze.
  rewrite (outcome_bind_return _ _ tt) by done.
  rewrite (outcome_bind_return _ _ tt) by done.
  rewrite (outcome_bind_return _ _ _ Hc).
  erewrite outcome_bind_return
    by (rewrite outcome_lift; apply getitem_dict, clamped_zone).
  rewrite (outcome_bind_return _ _ tt) by done.
  apply outcome_bind_raise. rewrite outcome_lift. simpl.
  rewrite clamped_other; [done |].
  unfold REQUIRED_KEYS. intros Hin.
  repeat (apply elem_of_cons in Hin as [Hin | Hin];
          [vm_compute in Hin; discriminate Hin |]).
  by apply elem_of_nil in Hin.
Qed.

Lemma analyze_when_classify_raises req e :
  outcome_of (classify_with_gemini generate_content (complaint req)) =
    Raise e ->
  outcome_of (analyze generate_content req) = Raise e.
Proof.
  intros Hc. unfold analyze.
  rewrite (outcome_bind_return _ _ tt) by done.
  rewrite (outcome_bind_return _ _ tt) by done.
  by apply outcome_bind_raise.
Qed.

(** No request is answered. *)
Lemma analyze_never_returns req resp :
  outcome_of (analyze generate_content req) <> Return resp.
Proof.
  destruct (outcome_of (classify_with_gemini generate_content (complaint req)))
    as [r|e] eqn:Hc.
  - by rewrite (analyze_after_classify _ _ Hc).
  - by rewrite (analyze_when_classify_raises _ _ Hc).
Qed.

End ServiceFacts.

(** ** Strings: strip, substrings and replace *)

Lemma lstrip_nonspace c s : isspace c = false -> lstrip (c :: s) = c :: s.
Proof. simpl. by intros ->. Qed.

Lemma rstrip_nonspace c s : isspace c = false -> rstrip (c :: s) = c :: rstrip s.
Proof. simpl. intros ->. by destruct (rstrip s). Qed.

Lemma lstrip_all_space w : forallb isspace w = true -> lstrip w = [].
Proof.
  induction w as [|c w IH]; [done |]. simpl.
  intros [Hc Hw]%andb_true_iff. rewrite Hc. auto.
Qed.

Lemma rstrip_all_space w : forallb isspace w = true -> rstrip w = [].
Proof.
  induction w as [|c w IH]; [done |]. simpl.
  intros [Hc Hw]%andb_true_iff. by rewrite IH, Hc.
Qed.

Lemma rstrip_app_space s w :
  forallb isspace w = true -> rstrip (s ++ w) = rstrip s.
Proof.
  intros Hw. induction s as [|c s IH]; simpl.
  - by apply rstrip_all_space.
  - by rewrite IH.
Qed.

Lemma lstrip_app s t :
  lstrip (s ++ t) = if forallb isspace s then lstrip t else lstrip s ++ t.
Proof.
  induction s as [|c s IH]; [done |]. simpl.
  destruct (isspace c); [exact IH | done].
Qed.

Lemma lstrip_head s c r : lstrip s = c :: r -> isspace c = false.
Proof.
  induction s as [|a s IH]; [done |]. simpl.
  destruct (isspace a) eqn:Ea; [exact IH |]. by intros [= <- _].
Qed.

Lemma rstrip_idemp s : rstrip (rstrip s) = rstrip s.
Proof.
  induction s as [|c s IH]; [done |]. simpl.
  destruct (rstrip s) as [|a r] eqn:E.
  - destruct (isspace c) eqn:Ec; [done |]. simpl. by rewrite Ec.
  - change (rstrip (c :: a :: r)) with
      (match rstrip (a :: r) with
       | [] => if isspace c then [] else [c]
       | r' => c :: r'
       end).
    by rewrite IH.
Qed.

Lemma strip_idemp s : strip (strip s) = strip s.
Proof.
  unfold strip. destruct (lstrip s) as [|c y] eqn:E; [done |].
  pose proof (lstrip_head _ _ _ E) as Hc.
  rewrite (rstrip_nonspace _ _ Hc), (lstrip_nonspace _ _ Hc).
  by rewrite (rstrip_nonspace _ _ Hc), rstrip_idemp.
Qed.

(** A line feed on each side of a text is stripped with the rest of the
    surrounding whitespace. *)
Lemma strip_newlines s : strip (10 :: s ++ [10]) = strip s.
Proof.
  unfold strip. change (lstrip (10 :: s ++ [10])) with (lstrip (s ++ [10])).
  rewrite lstrip_app. destruct (forallb isspace s) eqn:E.
  - by rewrite (lstrip_all_space _ E).
  - by apply rstrip_app_space.
Qed.

Lemma strip_id c s d :
  isspace c = false -> isspace d = false ->
  strip (c :: s ++ [d]) = c :: s ++ [d].
Proof.
  intros Hc Hd. unfold strip. rewrite (lstrip_nonspace _ _ Hc).
  rewrite (rstrip_nonspace _ _ Hc). f_equal.
  induction s as [|a s IH]; simpl; [by rewrite Hd |].
  rewrite IH. by destruct s.
Qed.

Lemma startswith_iff p s : startswith p s = true <-> exists t, s = p ++ t.
Proof.
  revert s. induction p as [|a p IH]; intros s; simpl.
  - split; eauto.
  - destruct s as [|b s].
    + split; [done | by intros [t ?]].
    + rewrite andb_true_iff, N.eqb_eq, IH. split.
      * intros [-> [t ->]]. eauto.
      * intros [t [= -> ->]]. eauto.
Qed.

Lemma startswith_length p s : startswith p s = true -> (length p <= length s)%nat.
Proof.
  intros [t ->]%startswith_iff. rewrite length_app. lia.
Qed.

Lemma occurs_iff p s : occurs p s = true <-> exists a b, s = a ++ p ++ b.
Proof.
  induction s as [|c s IH]; simpl.
  - rewrite orb_false_r, startswith_iff. split.
    + intros [t E]. exists [], t. done.
    + intros (a & b & E). destruct a; [| done]. simpl in E. eauto.
  - rewrite orb_true_iff, startswith_iff, IH. split.
    + intros [[t E] | (a & b & ->)].
      * exists [], t. done.
      * exists (c :: a), b. done.
    + intros (a & b & E). destruct a as [|c' a]; simpl in E.
      * left. eauto.
      * injection E as <- ->. right. eauto.
Qed.

Lemma occurs_part p a s b : occurs p (a ++ s ++ b) = false -> occurs p s = false.
Proof.
  intros H. apply not_true_iff_false. intros (a' & b' & ->)%occurs_iff.
  apply not_true_iff_false in H. apply H, occurs_iff.
  exists (a ++ a'), (b' ++ b). by rewrite <- !app_assoc.
Qed.

Lemma lstrip_suffix s : exists w, s = w ++ lstrip s.
Proof.
  induction s as [|c s [w IH]]; [by exists [] |]. simpl.
  destruct (isspace c); [| by exists []].
  exists (c :: w). simpl. by rewrite <- IH.
Qed.

Lemma rstrip_prefix s : exists w, s = rstrip s ++ w.
Proof.
  induction s as [|c s [w IH]]; [by exists [] |]. simpl.
  destruct (rstrip s) as [|a r] eqn:E.
  - destruct (isspace c); [by exists (c :: s) |].
    exists w. simpl. f_equal. exact IH.
  - exists w. simpl. f_equal. exact IH.
Qed.

Lemma occurs_strip p s : occurs p s = false -> occurs p (strip s) = false.
Proof.
  intros H. unfold strip.
  destruct (lstrip_suffix s) as [w1 E1].
  destruct (rstrip_prefix (lstrip s)) as [w2 E2].
  rewrite E1, E2 in H. by apply occurs_part in H.
Qed.

Lemma occurs_longer p q s : occurs p s = false -> occurs (p ++ q) s = false.
Proof.
  intros H. apply not_true_iff_false. intros (a & b & ->)%occurs_iff.
  apply not_true_iff_false in H. apply H, occurs_iff.
  exists a, (q ++ b). by rewrite <- app_assoc.
Qed.

Lemma replace_from_skip old new a t :
  replace_from old new (length a) (a ++ t) = replace_from old new 0 t.
Proof. induction a as [|c a IH]; [done | exact IH]. Qed.

(** An occurrence at the head is replaced and the scan goes on after
    it. *)
Lemma replace_from_match old new t :
  old <> [] ->
  replace_from old new 0 (old ++ t) = new ++ replace_from old new 0 t.
Proof.
  destruct old as [|c old]; [done |]. intros _.
  change (replace_from (c :: old) new 0 ((c :: old) ++ t)) with
    (if startswith (c :: old) ((c :: old) ++ t)
     then new ++ replace_from (c :: old) new (length (c :: old) - 1) (old ++ t)
     else c :: replace_from (c :: old) new 0 (old ++ t)).
  rewrite (proj2 (startswith_iff _ _)) by eauto.
  replace (length (c :: old) - 1)%nat with (length old) by (simpl; lia).
  by rewrite replace_from_skip.
Qed.

(** A text without an occurrence is left as it is. *)
Lemma replace_from_absent old new t :
  occurs old t = false -> replace_from old new 0 t = t.
Proof.
  induction t as [|c t IH]; [done |].
  intros [H1 H2]%orb_false_iff.
  change (replace_from old new 0 (c :: t)) with
    (if startswith old (c :: t)
     then new ++ replace_from old new (length old - 1) t
     else c :: replace_from old new 0 t).
  rewrite H1, IH; done.
Qed.

Section Separator.

(** A character [sep] that is not in the pattern separates the text: an
    occurrence lies on one side of it. *)
Variables (old : str) (sep : N).
Hypothesis old_nonempty : old <> [].
Hypothesis sep_fresh : forall x, x ∈ old -> x <> sep.

Lemma startswith_sep a b : startswith old (a ++ sep :: b) = startswith old a.
Proof.
  revert a. clear old_nonempty.
  induction old as [|x p IH]; intros a; [done |].
  destruct a as [|y a]; simpl.
  - rewrite (proj2 (N.eqb_neq x sep)); [done |]. apply sep_fresh. by left.
  - rewrite IH; [done |]. intros z Hz. apply sep_fresh. by right.
Qed.

Lemma occurs_sep a b :
  occurs old (a ++ sep :: b) = occurs old a || occurs old b.
Proof.
  induction a as [|y a IH].
  - change (occurs old ([] ++ sep :: b)) with
      (startswith old ([] ++ sep :: b) || occurs old b).
    rewrite startswith_sep. by destruct old.
  - change (occurs old ((y :: a) ++ sep :: b)) with
      (startswith old ((y :: a) ++ sep :: b) || occurs old (a ++ sep :: b)).
    rewrite startswith_sep, IH. simpl. by rewrite orb_assoc.
Qed.

Lemma replace_from_sep new a b k :
  (k <= length a)%nat ->
  replace_from old new k (a ++ sep :: b) =
  replace_from old new k a ++ sep :: replace_from old new 0 b.
Proof.
  revert k. induction a as [|y a IH]; intros k Hk.
  - simpl in Hk. assert (k = 0)%nat as -> by lia.
    change (replace_from old new 0 ([] ++ sep :: b)) with
      (if startswith old ([] ++ sep :: b)
       then new ++ replace_from old new (length old - 1) b
       else sep :: replace_from old new 0 b).
    rewrite startswith_sep. destruct old; done.
  - destruct k as [|k].
    + change (replace_from old new 0 ((y :: a) ++ sep :: b)) with
        (if startswith old ((y :: a) ++ sep :: b)
         then new ++ replace_from old new (length old - 1) (a ++ sep :: b)
         else y :: replace_from old new 0 (a ++ sep :: b)).
      change (replace_from old new 0 (y :: a)) with
        (if startswith old (y :: a)
         then new ++ replace_from old new (length old - 1) a
         else y :: replace_from old new 0 a).
      rewrite startswith_sep. destruct (startswith old (y :: a)) eqn:E.
      * apply startswith_length in E. simpl in E.
        rewrite IH by lia. by rewrite app_assoc.
      * rewrite IH by lia. done.
    + simpl in Hk. simpl. apply IH. lia.
Qed.

End Separator.

(** ** The code-fence markers *)

Lemma FENCE_chars : FENCE = [96; 96; 96].
Proof. reflexivity. Qed.

Lemma FENCE_JSON_chars : FENCE_JSON = FENCE ++ [106; 115; 111; 110].
Proof. reflexivity. Qed.

Lemma replace_fence_other c s :
  c <> 96 ->
  replace_from [96; 96; 96] [] 0 (c :: s) =
  c :: replace_from [96; 96; 96] [] 0 s.
Proof.
  intros Hc. cbn [replace_from startswith].
  rewrite (proj2 (N.eqb_neq 96 c)); [done | congruence].
Qed.

Lemma startswith_fence_other c s :
  c <> 96 -> startswith [96; 96; 96] (c :: s) = false.
Proof.
  intros Hc. cbn [startswith].
  rewrite (proj2 (N.eqb_neq 96 c)); [done | congruence].
Qed.

(** After the replacement of the marker by nothing no marker is left:
    what remains of a run of backquotes is shorter than the marker. *)
Lemma replace_fence_clean_upto n s :
  (length s <= n)%nat ->
  occurs [96; 96; 96] (replace_from [96; 96; 96] [] 0 s) = false.
Proof.
  revert s. induction n as [|n IH]; intros s Hn.
  { destruct s; [done | simpl in Hn; lia]. }
  destruct s as [|a s]; [done |]. simpl in Hn.
  assert (forall c t, c <> 96 -> (length t <= n)%nat ->
            occurs [96; 96; 96] (replace_from [96; 96; 96] [] 0 (c :: t))
            = false) as Hother.
  { intros c t Hc Ht. rewrite (replace_fence_other _ _ Hc).
    change (occurs ?p (c :: ?t')) with (startswith p (c :: t') || occurs p t').
    rewrite (startswith_fence_other _ _ Hc). apply IH, Ht. }
  destruct (N.eq_dec a 96) as [-> | Ha]; [| apply Hother; [done | lia]].
  destruct s as [|b s]; [done |]. simpl in Hn.
  destruct (N.eq_dec b 96) as [-> | Hb].
  - destruct s as [|c s]; [done |]. simpl in Hn.
    destruct (N.eq_dec c 96) as [-> | Hc].
    + change (replace_from [96; 96; 96] [] 0 (96 :: 96 :: 96 :: s)) with
        (replace_from [96; 96; 96] [] 0 s).
      apply IH. lia.
    + assert (replace_from [96; 96; 96] [] 0 (96 :: 96 :: c :: s) =
              96 :: 96 :: replace_from [96; 96; 96] [] 0 (c :: s)) as ->.
      { cbn [replace_from startswith].
        rewrite (proj2 (N.eqb_neq 96 c)) by congruence.
        by rewrite N.eqb_refl. }
      rewrite (replace_fence_other _ _ Hc).
      assert (occurs [96; 96; 96]
                (replace_from [96; 96; 96] [] 0 s) = false) as Hs
        by (apply IH; lia).
      cbn [occurs startswith].
      rewrite (proj2 (N.eqb_neq 96 c)) by congruence.
      rewrite N.eqb_refl. exact Hs.
  - assert (replace_from [96; 96; 96] [] 0 (96 :: b :: s) =
            96 :: replace_from [96; 96; 96] [] 0 (b :: s)) as ->.
    { cbn [replace_from startswith].
      rewrite (proj2 (N.eqb_neq 96 b)) by congruence.
      by rewrite N.eqb_refl. }
    rewrite (replace_fence_other _ _ Hb).
    assert (occurs [96; 96; 96]
              (replace_from [96; 96; 96] [] 0 s) = false) as Hs
      by (apply IH; lia).
    cbn [occurs startswith].
    rewrite (proj2 (N.eqb_neq 96 b)) by congruence.
    rewrite N.eqb_refl. exact Hs.
Qed.

Lemma replace_fence_clean s : occurs FENCE (replace FENCE [] s) = false.
Proof. exact (replace_fence_clean_upto (length s) s (le_n _)). Qed.

(** The text the fallback parses holds neither marker. *)
Lemma cleaned_no_marker raw_text :
  occurs FENCE (cleaned raw_text) = false /\
  occurs FENCE_JSON (cleaned raw_text) = false.
Proof.
  assert (occurs FENCE (cleaned raw_text) = false) as H
    by apply occurs_strip, replace_fence_clean.
  split; [exact H |]. rewrite FENCE_JSON_chars. by apply occurs_longer.
Qed.

(** A marker between two texts without backquotes is removed and the
    texts are joined, wherever the marker stands. *)
Lemma replace_from_no_head old new a t c p :
  old = c :: p -> (forall x, x ∈ a -> x <> c) ->
  replace_from old new 0 (a ++ t) = a ++ replace_from old new 0 t.
Proof.
  intros -> Ha. induction a as [|y a IH]; [done |].
  change (replace_from (c :: p) new 0 ((y :: a) ++ t)) with
    (if startswith (c :: p) (y :: a ++ t)
     then new ++ replace_from (c :: p) new (length (c :: p) - 1) (a ++ t)
     else y :: replace_from (c :: p) new 0 (a ++ t)).
  cbn [startswith]. rewrite (proj2 (N.eqb_neq c y)).
  - cbn [andb app]. rewrite IH; [done |]. intros x Hx. apply Ha. by right.
  - intros ->. apply (Ha y); [by left | done].
Qed.

Lemma no_backquote_no_fence a :
  (forall x, x ∈ a -> x <> 96) -> occurs FENCE a = false.
Proof.
  intros Ha. apply not_true_iff_false. intros (u & v & ->)%occurs_iff.
  apply (Ha 96); [| done]. rewrite FENCE_chars.
  apply elem_of_app. right. by left.
Qed.

Lemma marker_removed_anywhere a b :
  (forall x, x ∈ a -> x <> 96) -> (forall x, x ∈ b -> x <> 96) ->
  replace FENCE [] (replace FENCE_JSON [] (a ++ FENCE_JSON ++ b)) = a ++ b /\
  (startswith (py "json") b = false ->
   replace FENCE [] (replace FENCE_JSON [] (a ++ FENCE ++ b)) = a ++ b).
Proof.
  intros Ha Hb.
  assert (occurs FENCE (a ++ b) = false) as Hab.
  { apply no_backquote_no_fence. intros x [Hx | Hx]%elem_of_app; auto. }
  assert (replace FENCE [] (a ++ b) = a ++ b) as Hclean
    by (by apply replace_from_absent).
  split.
  - assert (replace FENCE_JSON [] (a ++ FENCE_JSON ++ b) = a ++ b) as ->;
      [| exact Hclean].
    change (replace FENCE_JSON [] ?t) with (replace_from FENCE_JSON [] 0 t).
    rewrite (replace_from_no_head _ _ _ _ 96 [96; 96; 106; 115; 111; 110])
      by done.
    rewrite replace_from_match by done. simpl. f_equal.
    apply replace_from_absent. rewrite FENCE_JSON_chars.
    apply occurs_longer, no_backquote_no_fence, Hb.
  - intros Hj.
    assert (replace FENCE_JSON [] (a ++ FENCE ++ b) = a ++ FENCE ++ b) as ->.
    { change (replace FENCE_JSON [] ?t) with (replace_from FENCE_JSON [] 0 t).
      rewrite (replace_from_no_head _ _ _ _ 96 [96; 96; 106; 115; 111; 110])
        by done.
      f_equal.
      change (replace_from FENCE_JSON [] 0 (FENCE ++ b)) with
        (if startswith FENCE_JSON (FENCE ++ b)
         then replace_from FENCE_JSON [] 6 ([96; 96] ++ b)
         else 96 :: replace_from FENCE_JSON [] 0 ([96; 96] ++ b)).
      assert (startswith FENCE_JSON (FENCE ++ b) = false) as ->.
      { apply not_true_iff_false. intros [t E]%startswith_iff.
        rewrite FENCE_JSON_chars, <- app_assoc in E.
        apply app_inv_head in E. apply not_true_iff_false in Hj.
        apply Hj, startswith_iff. by exists t. }
      rewrite FENCE_chars. simpl app. f_equal.
      apply replace_from_absent.
      apply not_true_iff_false. intros (u & v & E)%occurs_iff.
      rewrite FENCE_JSON_chars, FENCE_chars in E.
      destruct u as [|u0 [|u1 u]]; simpl in E.
      - injection E as E. apply (Hb 96); [| done]. rewrite E. by left.
      - injection E as _ E. apply (Hb 96); [| done]. rewrite E. by left.
      - injection E as _ _ E. apply (Hb 96); [| done]. rewrite E.
        apply elem_of_app. right. by left. }
    change (replace FENCE [] ?t) with (replace_from FENCE [] 0 t).
    rewrite (replace_from_no_head _ _ _ _ 96 [96; 96]) by done.
    rewrite replace_from_match by done. simpl. f_equal.
    apply replace_from_absent, no_backquote_no_fence, Hb.
Qed.

(** ** Fenced and plain replies *)

Lemma strip_fenced s : strip (fenced s) = fenced s.
Proof.
  assert (fenced s =
          96 :: ([96; 96; 106; 115; 111; 110; 10] ++ s ++ [10; 96; 96]) ++ [96])
    as ->.
  { unfold fenced. rewrite FENCE_JSON_chars, FENCE_chars, <- !app_assoc.
    reflexivity. }
  by apply strip_id.
Qed.

Lemma json_loads_fenced s : json_loads (fenced s) = None.
Proof. reflexivity. Qed.

Lemma FENCE_no_newline x : x ∈ FENCE -> x <> 10.
Proof.
  rewrite FENCE_chars. intros H.
  repeat (apply elem_of_cons in H as [-> | H]; [done |]).
  by apply elem_of_nil in H.
Qed.

Lemma FENCE_JSON_no_newline x : x ∈ FENCE_JSON -> x <> 10.
Proof.
  rewrite FENCE_JSON_chars, FENCE_chars. intros H.
  repeat (apply elem_of_cons in H as [-> | H]; [done |]).
  by apply elem_of_nil in H.
Qed.

Lemma FENCE_nonempty : FENCE <> [].
Proof. by rewrite FENCE_chars. Qed.

Lemma FENCE_JSON_nonempty : FENCE_JSON <> [].
Proof. by rewrite FENCE_JSON_chars, FENCE_chars. Qed.

(** With no marker inside [s], cleaning the fenced text gives the
    stripped [s]. *)
Lemma cleaned_fenced s : occurs FENCE s = false -> cleaned (fenced s) = strip s.
Proof.
  intros Hs. unfold cleaned, fenced.
  assert (replace FENCE_JSON [] (FENCE_JSON ++ [10] ++ s ++ [10] ++ FENCE) =
          10 :: s ++ 10 :: FENCE) as ->.
  { change (replace FENCE_JSON [] ?t) with (replace_from FENCE_JSON [] 0 t).
    rewrite (replace_from_match _ _ _ FENCE_JSON_nonempty).
    change (replace_from FENCE_JSON [] 0 ([] ++ 10 :: (s ++ 10 :: FENCE)) =
            10 :: s ++ 10 :: FENCE).
    apply replace_from_absent.
    change (occurs FENCE_JSON ([] ++ 10 :: (s ++ 10 :: FENCE)) = false).
    rewrite (occurs_sep _ _ FENCE_JSON_nonempty FENCE_JSON_no_newline [] _).
    rewrite (occurs_sep _ _ FENCE_JSON_nonempty FENCE_JSON_no_newline s _).
    assert (occurs FENCE_JSON s = false) as ->.
    { rewrite FENCE_JSON_chars. by apply occurs_longer. }
    reflexivity. }
  assert (replace FENCE [] (10 :: s ++ 10 :: FENCE) = 10 :: s ++ [10]) as ->.
  { change (replace_from FENCE [] 0 ([] ++ 10 :: (s ++ 10 :: FENCE)) =
            10 :: s ++ [10]).
    rewrite (replace_from_sep _ _ FENCE_nonempty FENCE_no_newline [] [] _ 0%nat)
      by done.
    rewrite (replace_from_sep _ _ FENCE_nonempty FENCE_no_newline [] s _ 0%nat)
      by lia.
    by rewrite (replace_from_absent _ _ _ Hs). }
  apply strip_newlines.
Qed.

Lemma cleaned_plain s : occurs FENCE s = false -> cleaned (strip s) = strip s.
Proof.
  intros Hs. apply occurs_strip in Hs. unfold cleaned.
  assert (replace FENCE_JSON [] (strip s) = strip s) as ->.
  { apply replace_from_absent. rewrite FENCE_JSON_chars.
    by apply occurs_longer. }
  assert (replace FENCE [] (strip s) = strip s) as ->
    by (by apply replace_from_absent).
  apply strip_idemp.
Qed.

(** ** The decoder reads a value from the head of the text only *)

#[local] Arguments isdigit : simpl never.
#[local] Arguments isspace : simpl never.
#[local] Arguments nonspace : simpl never.
#[local] Arguments json_ws : simpl never.
#[local] Arguments number_char : simpl never.
#[local] Arguments hex4 : simpl never.
#[local] Arguments unescape : simpl never.
#[local] Arguments N.eqb : simpl never.
#[local] Arguments N.leb : simpl never.
#[local] Arguments N.ltb : simpl never.


Lemma digit_nonspace c : isdigit c = true -> nonspace c = true.
Proof. intros H. chars. Qed.

Lemma digits_nonspace ds :
  forallb isdigit ds = true -> forallb nonspace ds = true.
Proof.
  intros Hd. apply forallb_forall. intros d Hin.
  apply digit_nonspace. eapply forallb_forall in Hd; eauto.
Qed.

Lemma stops_no_digit rest : stops rest -> no_digit_head rest.
Proof. destruct rest as [|c r]; [done |]. simpl. intros H. chars. Qed.

Lemma span_digits_spec x ds r :
  span_digits x = (ds, r) ->
  x = ds ++ r /\ forallb isdigit ds = true /\ no_digit_head r.
Proof.
  revert ds r. induction x as [|c x IH]; intros ds r; simpl.
  - by intros [= <- <-].
  - destruct (isdigit c) eqn:Ec.
    + destruct (span_digits x) as [ds' r'] eqn:E. intros [= <- <-].
      destruct (IH _ _ eq_refl) as (-> & Hd & Hr). simpl. by rewrite Ec.
    + intros [= <- <-]. simpl. done.
Qed.

Lemma span_digits_app ds r :
  forallb isdigit ds = true -> no_digit_head r -> span_digits (ds ++ r) = (ds, r).
Proof.
  intros Hd Hr. induction ds as [|c ds IH]; simpl.
  - destruct r as [|c r]; [done |]. simpl in *. by rewrite Hr.
  - simpl in Hd. apply andb_true_iff in Hd as [Hc Hd]. by rewrite Hc, IH.
Qed.

(** The integer group: its text is what was read, and it is read again
    before any text that does not start with a digit. *)
Lemma match_unsigned_local sign x int r1 :
  match_unsigned sign x = Some (int, r1) ->
  exists ds,
    int = sign ++ ds /\ x = ds ++ r1 /\ ds <> [] /\
    forallb isdigit ds = true /\
    forall r', no_digit_head r' ->
               match_unsigned sign (ds ++ r') = Some (sign ++ ds, r').
Proof.
  unfold match_unsigned. destruct x as [|c x]; [done |].
  destruct (c =? 48) eqn:E0.
  - intros [= <- <-]. exists [c]. repeat split; try done.
    + simpl. apply N.eqb_eq in E0 as ->. done.
    + intros r' _. simpl. by rewrite E0.
  - destruct (isdigit c) eqn:Ec; [| done].
    destruct (span_digits x) as [ds r] eqn:E. intros [= <- <-].
    apply span_digits_spec in E as (-> & Hd & Hr).
    exists (c :: ds). repeat split; try done.
    + simpl. by rewrite Ec.
    + intros r' Hr'. simpl. rewrite E0, Ec.
      by rewrite (span_digits_app _ _ Hd Hr').
Qed.

Lemma match_integer_local x int r1 :
  match_integer x = Some (int, r1) ->
  x = int ++ r1 /\ int <> [] /\ forallb nonspace int = true /\
  forall r', no_digit_head r' -> match_integer (int ++ r') = Some (int, r').
Proof.
  unfold match_integer. destruct x as [|c x]; [done |].
  destruct (c =? 45) eqn:E.
  - intros H. apply match_unsigned_local in H as (ds & -> & -> & Hne & Hd & Hl).
    apply N.eqb_eq in E as ->.
    split; [done |]. split; [done |]. split.
    + cbn [app forallb]. apply andb_true_iff.
      split; [done | exact (digits_nonspace _ Hd)].
    + intros r' Hr'. simpl. by apply Hl.
  - intros H. apply match_unsigned_local in H as (ds & -> & E' & Hne & Hd & Hl).
    simpl. rewrite E'.
    split; [done |]. split; [done |]. split.
    + by apply digits_nonspace.
    + intros r' Hr'. destruct ds as [|d ds]; [done |].
      injection E' as <- ->. simpl. rewrite E. by apply (Hl r').
Qed.

Lemma match_frac_local r1 frac r2 :
  match_frac r1 = (frac, r2) ->
  r1 = frac ++ r2 /\ forallb nonspace frac = true /\
  (frac = [] \/ (exists f, frac = 46 :: f) /\
                forall r', no_digit_head r' ->
                           match_frac (frac ++ r') = (frac, r')).
Proof.
  unfold match_frac. destruct r1 as [|c x]; [intros [= <- <-]; auto |].
  destruct (c =? 46) eqn:E; [| intros [= <- <-]; auto].
  destruct (span_digits x) as [ds r] eqn:Es.
  destruct ds as [|d ds]; [intros [= <- <-]; auto |]. intros [= <- <-].
  apply span_digits_spec in Es as (-> & Hd & Hr).
  apply N.eqb_eq in E as ->. repeat split; try done.
  - cbn [forallb]. apply andb_true_iff.
    split; [done | exact (digits_nonspace _ Hd)].
  - right. split; [eauto |]. intros r' Hr'. simpl.
    assert (span_digits ((d :: ds) ++ r') = (d :: ds, r')) as E
      by (by apply span_digits_app).
    simpl in E. by rewrite E.
Qed.

Lemma match_frac_none r' :
  match r' with [] => True | c :: _ => c <> 46 end ->
  match_frac r' = ([], r').
Proof.
  unfold match_frac. destruct r' as [|c x]; [done |]. intros Hc.
  by rewrite (proj2 (N.eqb_neq c 46) Hc).
Qed.

Lemma match_exp_local r2 exp r3 :
  match_exp r2 = (exp, r3) ->
  r2 = exp ++ r3 /\ forallb nonspace exp = true /\
  (exp = [] \/ (exists e x, exp = e :: x /\ (e = 101 \/ e = 69)) /\
               forall r', no_digit_head r' ->
                          match_exp (exp ++ r') = (exp, r')).
Proof.
  unfold match_exp. destruct r2 as [|c x]; [intros [= <- <-]; auto |].
  destruct ((c =? 101) || (c =? 69)) eqn:E; [| intros [= <- <-]; auto].
  assert (c = 101 \/ c = 69) as Hc.
  { apply orb_true_iff in E as [E | E]; apply N.eqb_eq in E; auto. }
  assert (nonspace c = true) as Hcs by (destruct Hc as [-> | ->]; done).
  destruct x as [|sg x]; [intros [= <- <-]; auto |].
  destruct ((sg =? 43) || (sg =? 45)) eqn:Esg.
  - destruct (span_digits x) as [ds r] eqn:Es.
    destruct ds as [|d ds]; [intros [= <- <-]; auto |]. intros [= <- <-].
    apply span_digits_spec in Es as (-> & Hd & Hr).
    assert (nonspace sg = true) as Hsg.
    { apply orb_true_iff in Esg as [E' | E']; apply N.eqb_eq in E' as ->; done. }
    repeat split; try done.
    + cbn [forallb]. rewrite Hcs, Hsg. exact (digits_nonspace _ Hd).
    + right. split; [eauto |]. intros r' Hr'. simpl. rewrite E, Esg.
      assert (span_digits ((d :: ds) ++ r') = (d :: ds, r')) as E'
        by (by apply span_digits_app).
      simpl in E'. by rewrite E'.
  - destruct (span_digits (sg :: x)) as [ds r] eqn:Es.
    destruct ds as [|d ds]; [intros [= <- <-]; auto |]. intros [= <- <-].
    apply span_digits_spec in Es as (Ex & Hd & Hr).
    injection Ex as -> ->.
    split; [done |]. split.
    + cbn [forallb]. rewrite Hcs. exact (digits_nonspace _ Hd).
    + right. split; [eauto |]. intros r' Hr'.
      assert (span_digits ((d :: ds) ++ r') = (d :: ds, r')) as E'
        by (by apply span_digits_app).
      unfold match_exp. cbn [app] in *. by rewrite E, Esg, E'.
Qed.

Lemma match_exp_none r' :
  match r' with [] => True | c :: _ => c <> 101 /\ c <> 69 end ->
  match_exp r' = ([], r').
Proof.
  unfold match_exp. destruct r' as [|c x]; [done |]. intros [H1 H2].
  by rewrite (proj2 (N.eqb_neq c 101) H1), (proj2 (N.eqb_neq c 69) H2).
Qed.

Lemma push_some ch o t rest :
  push ch o = Some (t, rest) -> exists t', t = ch :: t' /\ o = Some (t', rest).
Proof. destruct o as [[t' r]|]; [| done]. intros [= <- <-]. eauto. Qed.

Lemma hex4_head a b c d r r' :
  hex4 (a :: b :: c :: d :: r) = hex4 (a :: b :: c :: d :: r').
Proof. reflexivity. Qed.

Lemma hex4_digits a b c d r u :
  hex4 (a :: b :: c :: d :: r) = Some u ->
  is_Some (hexval a) /\ is_Some (hexval b) /\
  is_Some (hexval c) /\ is_Some (hexval d).
Proof.
  unfold hex4. destruct (hexval a), (hexval b), (hexval c), (hexval d);
    done.
Qed.

Lemma hexval_quote : ~ is_Some (hexval 34).
Proof. by intros [? ?]. Qed.

Lemma scanstring_plain c r :
  (c =? 34) = false -> (c =? 92) = false -> (c <? 32) = false ->
  scanstring (c :: r) = push c (scanstring r).
Proof. intros E1 E2 E3. cbn [scanstring]. by rewrite E1, E2, E3. Qed.

Lemma scanstring_escape e r ch :
  (e =? 117) = false -> unescape e = Some ch ->
  scanstring (92 :: e :: r) = push ch (scanstring r).
Proof. intros E1 E2. cbn [scanstring]. by rewrite E1, E2. Qed.

Lemma scanstring_unicode h1 h2 h3 h4 r2 uni :
  hex4 (h1 :: h2 :: h3 :: h4 :: r2) = Some uni ->
  scanstring (92 :: 117 :: h1 :: h2 :: h3 :: h4 :: r2) =
  if (55296 <=? uni) && (uni <=? 56319) then
    match r2 with
    | b :: u :: r3 =>
      if (b =? 92) && (u =? 117) then
        match hex4 r3, r3 with
        | Some uni2, _ :: _ :: _ :: _ :: r4 =>
          if (56320 <=? uni2) && (uni2 <=? 57343)
          then push (65536 + N.lor (N.shiftl (uni - 55296) 10) (uni2 - 56320))
                    (scanstring r4)
          else push uni (scanstring r2)
        | _, _ => None
        end
      else push uni (scanstring r2)
    | _ => push uni (scanstring r2)
    end
  else push uni (scanstring r2).
Proof. intros E. cbn [scanstring]. by rewrite E. Qed.

(** [scanstring] reads up to the closing quote and no further. *)
Lemma scanstring_local_upto n x t rest :
  (length x <= n)%nat ->
  scanstring x = Some (t, rest) ->
  exists c, x = c ++ 34 :: rest /\
            forall rest', scanstring (c ++ 34 :: rest') = Some (t, rest').
Proof.
  revert x t rest. induction n as [|n IH]; intros x t rest Hn H.
  { destruct x; [done | simpl in Hn; lia]. }
  destruct x as [|c0 r]; [done |]. simpl in Hn.
  cbn [scanstring] in H.
  destruct (c0 =? 34) eqn:E34.
  { apply N.eqb_eq in E34 as ->. injection H as <- <-.
    exists []. split; [done |]. intros rest'. reflexivity. }
  destruct (c0 =? 92) eqn:E92.
  2: { destruct (c0 <? 32) eqn:E32; [done |].
       apply push_some in H as (t' & -> & H).
       apply IH in H as (c & -> & Hloc); [| lia].
       exists (c0 :: c). split; [done |]. intros rest'.
       cbn [app]. by rewrite (scanstring_plain _ _ E34 E92 E32), Hloc. }
  apply N.eqb_eq in E92 as ->. destruct r as [|e r1]; [done |]. simpl in Hn.
  destruct (e =? 117) eqn:E117.
  2: { destruct (unescape e) as [ch|] eqn:Eu; [| done].
       apply push_some in H as (t' & -> & H).
       apply IH in H as (c & -> & Hloc); [| lia].
       exists (92 :: e :: c). split; [done |]. intros rest'.
       cbn [app]. by rewrite (scanstring_escape _ _ _ E117 Eu), Hloc. }
  apply N.eqb_eq in E117 as ->.
  destruct r1 as [|h1 [|h2 [|h3 [|h4 r2]]]]; try (by unfold hex4 in H).
  simpl in Hn.
  destruct (hex4 (h1 :: h2 :: h3 :: h4 :: r2)) as [uni|] eqn:Eh; [| done].
  assert (forall X, hex4 (h1 :: h2 :: h3 :: h4 :: X) = Some uni) as Hh
    by (intros X; by rewrite <- Eh).
  cbv zeta in H.
  assert (forall t' c2,
            (forall rest', scanstring (c2 ++ 34 :: rest') = Some (t', rest')) ->
            forall rest',
              push uni (scanstring (c2 ++ 34 :: rest')) =
              Some (uni :: t', rest')) as Hlone.
  { intros t' c2 Hloc rest'. by rewrite Hloc. }
  destruct ((55296 <=? uni) && (uni <=? 56319)) eqn:Ehigh.
  2: { apply push_some in H as (t' & -> & H).
       apply IH in H as (c & -> & Hloc); [| lia].
       exists (92 :: 117 :: h1 :: h2 :: h3 :: h4 :: c).
       split; [done |]. intros rest'.
       cbn [app]. rewrite (scanstring_unicode _ _ _ _ _ _ (Hh _)), Ehigh.
       by apply Hlone. }
  destruct r2 as [|b [|u r3]].
  - done.
  - apply push_some in H as (t' & -> & H).
    apply IH in H as (c2 & E2 & Hloc); [| simpl; lia].
    destruct c2 as [|? [|? ?]]; try done. injection E2 as -> <-.
    exists [92; 117; h1; h2; h3; h4]. split; [done |]. intros rest'.
    cbn [app]. rewrite (scanstring_unicode _ _ _ _ _ _ (Hh _)), Ehigh.
    destruct rest' as [|u r3]; [by apply (Hlone _ []) |].
    replace ((34 =? 92) && (u =? 117)) with false by done.
    by apply (Hlone _ []).
  - simpl in Hn. destruct ((b =? 92) && (u =? 117)) eqn:Ebu.
    + apply andb_true_iff in Ebu as [Eb Eu].
      apply N.eqb_eq in Eb as ->. apply N.eqb_eq in Eu as ->.
      destruct r3 as [|g1 [|g2 [|g3 [|g4 r4]]]]; try (by unfold hex4 in H).
      simpl in Hn.
      destruct (hex4 (g1 :: g2 :: g3 :: g4 :: r4)) as [uni2|] eqn:Eg; [| done].
      assert (forall X, hex4 (g1 :: g2 :: g3 :: g4 :: X) = Some uni2) as Hg
        by (intros X; by rewrite <- Eg).
      destruct ((56320 <=? uni2) && (uni2 <=? 57343)) eqn:Elow.
      * apply push_some in H as (t' & -> & H).
        apply IH in H as (c & -> & Hloc); [| lia].
        exists (92 :: 117 :: h1 :: h2 :: h3 :: h4 ::
                92 :: 117 :: g1 :: g2 :: g3 :: g4 :: c).
        split; [done |]. intros rest'.
        cbn [app]. rewrite (scanstring_unicode _ _ _ _ _ _ (Hh _)), Ehigh.
        replace ((92 =? 92) && (117 =? 117)) with true by done.
        by rewrite Hg, Elow, Hloc.
      * apply push_some in H as (t' & -> & H).
        apply IH in H as (c2 & E2 & Hloc); [| simpl; lia].
        apply hex4_digits in Eg as (D1 & D2 & D3 & D4).
        destruct c2 as [|x1 [|x2 [|x3 [|x4 [|x5 [|x6 c2]]]]]];
          try (injection E2; intros; subst; by apply hexval_quote in D1);
          try (injection E2; intros; subst; by apply hexval_quote in D2);
          try (injection E2; intros; subst; by apply hexval_quote in D3);
          try (injection E2; intros; subst; by apply hexval_quote in D4);
          try done.
        injection E2 as <- <- <- <- <- <- ->.
        exists (92 :: 117 :: h1 :: h2 :: h3 :: h4 ::
                92 :: 117 :: g1 :: g2 :: g3 :: g4 :: c2).
        split; [done |]. intros rest'.
        cbn [app]. rewrite (scanstring_unicode _ _ _ _ _ _ (Hh _)), Ehigh.
        replace ((92 =? 92) && (117 =? 117)) with true by done.
        rewrite Hg, Elow.
        by apply (Hlone t' (92 :: 117 :: g1 :: g2 :: g3 :: g4 :: c2)).
    + apply push_some in H as (t' & -> & H).
      apply IH in H as (c2 & E2 & Hloc); [| simpl; lia].
      exists (92 :: 117 :: h1 :: h2 :: h3 :: h4 :: c2).
      split; [by rewrite E2 |]. intros rest'.
      cbn [app]. rewrite (scanstring_unicode _ _ _ _ _ _ (Hh _)), Ehigh.
      destruct c2 as [|b' [|u' c2]].
      * injection E2 as -> _.
        destruct rest' as [|u' r3']; [by apply (Hlone _ []) |].
        cbn [app].
        replace ((34 =? 92) && (u' =? 117)) with false by done.
        by apply (Hlone _ []).
      * injection E2 as <- -> _. cbn [app].
        replace ((b =? 92) && (34 =? 117)) with false
          by (by rewrite andb_false_r).
        by apply (Hlone _ [b]).
      * injection E2 as <- <- _. cbn [app]. rewrite Ebu.
        by apply (Hlone _ (b :: u :: c2)).
Qed.

Lemma scanstring_local x t rest :
  scanstring x = Some (t, rest) ->
  exists c, x = c ++ 34 :: rest /\
            forall rest', scanstring (c ++ 34 :: rest') = Some (t, rest').
Proof. by apply (scanstring_local_upto (length x)). Qed.

Lemma match_number_local x v rest :
  match_number x = Some (v, rest) ->
  exists c, x = c ++ rest /\ c <> [] /\ forallb nonspace c = true /\
            forall rest', stops rest' ->
                          match_number (c ++ rest') = Some (v, rest').
Proof.
  unfold match_number.
  destruct (match_integer x) as [[int r1]|] eqn:Ei; [| done].
  destruct (match_frac r1) as [frac r2] eqn:Ef.
  destruct (match_exp r2) as [exp r3] eqn:Ee. intros Hv.
  apply match_integer_local in Ei as (-> & Hine & Hins & Hil).
  apply match_frac_local in Ef as (-> & Hfns & Hf).
  apply match_exp_local in Ee as (-> & Hens & He).
  assert (r3 = rest) as -> by (destruct frac, exp; by injection Hv).
  exists (int ++ frac ++ exp). split; [by rewrite <- !app_assoc |].
  split; [by destruct int |].
  split; [by rewrite !forallb_app, Hins, Hfns, Hens |].
  intros rest' Hs. rewrite <- !app_assoc.
  assert (no_digit_head (exp ++ rest')) as N1.
  { destruct He as [-> | [(e & y & -> & He) _]];
      [by apply stops_no_digit | by destruct He as [-> | ->]]. }
  assert (no_digit_head (frac ++ exp ++ rest')) as N2.
  { destruct Hf as [-> | [(f & ->) _]]; [exact N1 | done]. }
  rewrite (Hil _ N2).
  assert (match_frac (frac ++ exp ++ rest') = (frac, exp ++ rest')) as ->.
  { destruct Hf as [-> | [_ Hf]]; [| by apply Hf].
    apply match_frac_none.
    destruct He as [-> | [(e & y & -> & He) _]].
    - destruct rest' as [|c r]; [done |]. simpl in *. chars.
    - by destruct He as [-> | ->]. }
  assert (match_exp (exp ++ rest') = (exp, rest')) as ->.
  { destruct He as [-> | [_ He]]; [| by apply He, stops_no_digit].
    apply match_exp_none. destruct rest' as [|c r]; [done |].
    simpl in *. split; chars. }
  destruct frac, exp; injection Hv as <-; done.
Qed.

Lemma match_number_head c0 r res :
  match_number (c0 :: r) = Some res -> c0 = 45 \/ isdigit c0 = true.
Proof.
  unfold match_number, match_integer.
  destruct (c0 =? 45) eqn:E; [apply N.eqb_eq in E; auto |].
  unfold match_unsigned. destruct (c0 =? 48) eqn:E0.
  { apply N.eqb_eq in E0 as ->. auto. }
  destruct (isdigit c0); [auto | done].
Qed.

Lemma constant_local name v x v' rest :
  constant name v x = Some (v', rest) ->
  x = name ++ rest /\ v' = v /\
  forall rest', constant name v (name ++ rest') = Some (v, rest').
Proof.
  unfold constant. destruct (startswith name x) eqn:E; [| done].
  intros [= <- <-]. apply startswith_iff in E as [t ->].
  rewrite drop_app_length. split; [done |]. split; [done |].
  intros rest'. rewrite (proj2 (startswith_iff _ _)) by eauto.
  by rewrite drop_app_length.
Qed.

(** A text that starts like a number starts none of the constants that
    are tried before the number. *)
Lemma constant_not_number name' n0 v c0 r :
  (c0 = 45 \/ isdigit c0 = true) ->
  (n0 =? 45) = false -> isdigit n0 = false ->
  constant (n0 :: name') v (c0 :: r) = None.
Proof.
  intros Hc H1 H2. unfold constant. cbn [startswith].
  assert ((n0 =? c0) = false) as ->; [| done].
  apply N.eqb_neq. intros ->. destruct Hc as [-> | Hc]; [done | congruence].
Qed.

Lemma skip_ws_split s :
  exists w, s = w ++ skip_ws s /\ forallb json_ws w = true.
Proof.
  induction s as [|c s (w & IH & Hw)]; [by exists [] |]. simpl.
  destruct (json_ws c) eqn:E; [| by exists []].
  exists (c :: w). simpl. rewrite E, Hw. split; [by f_equal | done].
Qed.

Lemma skip_ws_head s h t : skip_ws s = h :: t -> json_ws h = false.
Proof.
  induction s as [|c s IH]; [done |]. simpl.
  destruct (json_ws c) eqn:E; [exact IH |]. by intros [= <- _].
Qed.

Lemma skip_ws_app w h t :
  forallb json_ws w = true -> json_ws h = false ->
  skip_ws (w ++ h :: t) = h :: t.
Proof.
  intros Hw Hh. induction w as [|c w IH]; simpl.
  - by rewrite Hh.
  - simpl in Hw. apply andb_true_iff in Hw as [Hc Hw]. rewrite Hc. auto.
Qed.

Lemma skip_ws_all w : forallb json_ws w = true -> skip_ws w = [].
Proof.
  induction w as [|c w IH]; [done |]. simpl.
  intros [Hc Hw]%andb_true_iff. rewrite Hc. auto.
Qed.

Lemma skip_ws_nil s : skip_ws s = [] -> forallb json_ws s = true.
Proof.
  induction s as [|c s IH]; [done |]. simpl.
  destruct (json_ws c); [exact IH | done].
Qed.

Lemma json_ws_isspace c : json_ws c = true -> isspace c = true.
Proof.
  unfold json_ws. rewrite !orb_true_iff, !N.eqb_eq.
  intros [[[-> | ->] | ->] | ->]; done.
Qed.

Lemma json_ws_all_isspace w :
  forallb json_ws w = true -> forallb isspace w = true.
Proof.
  intros H. apply forallb_forall. intros c Hin.
  apply json_ws_isspace. eapply forallb_forall in H; eauto.
Qed.

Lemma json_ws_stops c r : json_ws c = true -> stops (c :: r).
Proof.
  unfold json_ws. rewrite !orb_true_iff, !N.eqb_eq.
  intros [[[-> | ->] | ->] | ->]; done.
Qed.

(** The text from a value to the next delimiter [z], which is not part
    of a number, is a stop. *)
Lemma stops_ws_delim w z r :
  forallb json_ws w = true -> number_char z = false -> stops (w ++ z :: r).
Proof.
  intros Hw Hz. destruct w as [|c w]; [done |].
  simpl in Hw. apply andb_true_iff in Hw as [Hc _].
  by apply (json_ws_stops c).
Qed.

Lemma rstrip_snoc t z : isspace z = false -> rstrip (t ++ [z]) = t ++ [z].
Proof.
  intros Hz. induction t as [|a t IH]; simpl; [by rewrite Hz |].
  rewrite IH. by destruct t.
Qed.

Lemma solid_closed h t z :
  isspace h = false -> isspace z = false -> solid (h :: t ++ [z]).
Proof.
  intros Hh Hz. exists h, (t ++ [z]). split; [done |]. split; [done |].
  by apply (rstrip_snoc (h :: t)).
Qed.

Lemma rstrip_nonspace_all c : forallb nonspace c = true -> rstrip c = c.
Proof.
  induction c as [|a c IH]; [done |]. simpl.
  intros [Ha Hc]%andb_true_iff. rewrite (IH Hc).
  unfold nonspace in Ha. apply negb_true_iff in Ha. rewrite Ha.
  by destruct c.
Qed.

Lemma solid_nonspace c : c <> [] -> forallb nonspace c = true -> solid c.
Proof.
  intros Hne Hc. destruct c as [|h t]; [done |]. exists h, t.
  split; [done |]. split; [| by apply rstrip_nonspace_all].
  simpl in Hc. apply andb_true_iff in Hc as [Hh _].
  by apply negb_true_iff in Hh.
Qed.

(** Stripping a solid text between whitespace leaves the text. *)
Lemma strip_solid w1 c w2 :
  forallb isspace w1 = true -> forallb isspace w2 = true -> solid c ->
  strip (w1 ++ c ++ w2) = c.
Proof.
  intros H1 H2 (h & t & -> & Hh & Hr). unfold strip.
  rewrite lstrip_app, H1. cbn [app]. rewrite (lstrip_nonspace _ _ Hh).
  change (h :: t ++ w2) with ((h :: t) ++ w2).
  by rewrite (rstrip_app_space _ _ H2).
Qed.

Lemma nonspace_not_ws h : isspace h = false -> json_ws h = false.
Proof.
  intros H. destruct (json_ws h) eqn:E; [| done].
  apply json_ws_isspace in E. congruence.
Qed.

Lemma scan_constant_local name v x v' rest :
  constant name v x = Some (v', rest) ->
  forallb nonspace name = true -> name <> [] ->
  (forall F' rest', scan_once (S F') (name ++ rest') = Some (v, rest')) ->
  exists c, x = c ++ rest /\ solid c /\
    forall F' rest', (length c <= F')%nat -> stops rest' ->
                     scan_once F' (c ++ rest') = Some (v', rest').
Proof.
  intros H Hns Hne Hscan. apply constant_local in H as (-> & -> & _).
  exists name. split; [done |]. split; [by apply solid_nonspace |].
  intros F' rest' HF _. destruct F' as [|f']; [| apply Hscan].
  destruct name; [done | simpl in HF; lia].
Qed.

Lemma scan_local F :
  scan_local_at F /\ members_local_at F /\ elems_local_at F.
Proof.
  induction F as [|f (IHs & IHm & IHe)].
  { split; [| split]; repeat intro; done. }
  split; [| split].
  - intros x v rest H. destruct x as [|c0 r]; [done |].
    cbn [scan_once] in H.
    destruct (c0 =? 34) eqn:E34.
    { apply N.eqb_eq in E34 as ->.
      destruct (scanstring r) as [[t r']|] eqn:Es; [| done].
      injection H as <- <-.
      apply scanstring_local in Es as (cs & -> & Hloc).
      exists (34 :: cs ++ [34]). split; [by norm |].
      split; [by apply solid_closed |].
      intros F' rest' HF _. destruct F' as [|f']; [simpl in HF; lia |].
      norm. cbn [scan_once]. eval_eqb. by rewrite Hloc. }
    destruct (c0 =? 123) eqn:E123.
    { apply N.eqb_eq in E123 as ->.
      destruct (skip_ws r) as [|c' r'] eqn:Esk; [done |].
      destruct (skip_ws_split r) as (w & Er & Hw). rewrite Esk in Er.
      pose proof (skip_ws_head _ _ _ Esk) as Hc'.
      destruct (c' =? 125) eqn:E125.
      - apply N.eqb_eq in E125 as ->. injection H as <- <-.
        exists (123 :: w ++ [125]). split; [rewrite Er; by norm |].
        split; [by apply solid_closed |].
        intros F' rest' HF _. destruct F' as [|f']; [simpl in HF; lia |].
        norm. cbn [scan_once]. eval_eqb.
        rewrite (skip_ws_app _ _ _ Hw Hc'). by eval_eqb.
      - apply IHm in H as (cm & E & Hloc). injection E as -> ->.
        exists (123 :: (w ++ 34 :: cm) ++ [125]).
        split; [rewrite Er; by norm |].
        split; [by apply solid_closed |].
        intros F' rest' HF _. destruct F' as [|f']; [simpl in HF; lia |].
        norm. cbn [scan_once]. eval_eqb.
        rewrite (skip_ws_app _ _ _ Hw Hc'). eval_eqb.
        apply Hloc. len. }
    destruct (c0 =? 91) eqn:E91.
    { apply N.eqb_eq in E91 as ->.
      destruct (skip_ws r) as [|c' r'] eqn:Esk; [done |].
      destruct (skip_ws_split r) as (w & Er & Hw). rewrite Esk in Er.
      pose proof (skip_ws_head _ _ _ Esk) as Hc'.
      destruct (c' =? 93) eqn:E93.
      - apply N.eqb_eq in E93 as ->. injection H as <- <-.
        exists (91 :: w ++ [93]). split; [rewrite Er; by norm |].
        split; [by apply solid_closed |].
        intros F' rest' HF _. destruct F' as [|f']; [simpl in HF; lia |].
        norm. cbn [scan_once]. eval_eqb.
        rewrite (skip_ws_app _ _ _ Hw Hc'). by eval_eqb.
      - apply IHe in H as (h & t & E & Hloc). injection E as -> ->.
        exists (91 :: (w ++ h :: t) ++ [93]).
        split; [rewrite Er; by norm |].
        split; [by apply solid_closed |].
        intros F' rest' HF _. destruct F' as [|f']; [simpl in HF; lia |].
        norm. cbn [scan_once]. eval_eqb.
        rewrite (skip_ws_app _ _ _ Hw Hc'). rewrite E93.
        apply Hloc. len. }
    destruct (constant (py "null") JNull (c0 :: r)) as [res|] eqn:C1.
    { injection H as ->.
      by apply (scan_constant_local _ _ _ _ _ C1). }
    destruct (constant (py "true") (JBool true) (c0 :: r)) as [res|] eqn:C2.
    { injection H as ->.
      by apply (scan_constant_local _ _ _ _ _ C2). }
    destruct (constant (py "false") (JBool false) (c0 :: r)) as [res|] eqn:C3.
    { injection H as ->.
      by apply (scan_constant_local _ _ _ _ _ C3). }
    destruct (match_number (c0 :: r)) as [res|] eqn:Cm.
    { injection H as ->.
      pose proof (match_number_head _ _ _ Cm) as Hhd.
      apply match_number_local in Cm as (c & E & Hne & Hns & Hl).
      destruct c as [|c0' c']; [done |]. injection E as <- ->.
      exists (c0 :: c'). split; [done |].
      split; [by apply solid_nonspace |].
      intros F' rest' HF Hs. destruct F' as [|f']; [simpl in HF; lia |].
      cbn [app scan_once]. rewrite E34, E123, E91.
      assert (forall X, constant (py "null") JNull (c0 :: X) = None) as ->
        by (intros X; exact (constant_not_number _ 110 _ _ _ Hhd eq_refl eq_refl)).
      assert (forall X, constant (py "true") (JBool true) (c0 :: X) = None)
        as ->
        by (intros X; exact (constant_not_number _ 116 _ _ _ Hhd eq_refl eq_refl)).
      assert (forall X, constant (py "false") (JBool false) (c0 :: X) = None)
        as ->
        by (intros X; exact (constant_not_number _ 102 _ _ _ Hhd eq_refl eq_refl)).
      change (c0 :: c' ++ rest') with ((c0 :: c') ++ rest').
      by rewrite (Hl _ Hs). }
    destruct (constant (py "NaN") (JFloat (py "NaN")) (c0 :: r))
      as [res|] eqn:C4.
    { injection H as ->.
      by apply (scan_constant_local _ _ _ _ _ C4). }
    destruct (constant (py "Infinity") (JFloat (py "Infinity")) (c0 :: r))
      as [res|] eqn:C5.
    { injection H as ->.
      by apply (scan_constant_local _ _ _ _ _ C5). }
    by apply (scan_constant_local _ _ _ _ _ H).
  - intros d x v rest H. destruct x as [|q r]; [done |].
    cbn [parse_members] in H.
    destruct (q =? 34) eqn:Eq; [| done]. apply N.eqb_eq in Eq as ->.
    destruct (scanstring r) as [[key r1]|] eqn:Es; [| done].
    apply scanstring_local in Es as (ck & -> & Hk).
    destruct (skip_ws r1) as [|colon r2] eqn:Esk1; [done |].
    destruct (skip_ws_split r1) as (w1 & E1 & Hw1). rewrite Esk1 in E1.
    destruct (colon =? 58) eqn:Ec; [| done]. apply N.eqb_eq in Ec as ->.
    destruct (scan_once f (skip_ws r2)) as [[v1 r3]|] eqn:Ev; [| done].
    destruct (skip_ws_split r2) as (w2 & E2 & Hw2).
    apply IHs in Ev as (c1 & E3 & (h1 & t1 & -> & Hh1 & Hr1) & Hv).
    rewrite E3 in E2.
    destruct (skip_ws r3) as [|ch r4] eqn:Esk3; [done |].
    destruct (skip_ws_split r3) as (w3 & E4 & Hw3). rewrite Esk3 in E4.
    pose proof (skip_ws_head _ _ _ Esk3) as Hch.
    destruct (ch =? 125) eqn:E125.
    + apply N.eqb_eq in E125 as ->. injection H as <- <-.
      exists (ck ++ 34 :: w1 ++ 58 :: w2 ++ (h1 :: t1) ++ w3).
      split; [rewrite E1, E2, E4; by norm |].
      intros F' rest' HF. destruct F' as [|f']; [lia |].
      norm. cbn [parse_members]. eval_eqb. rewrite Hk.
      rewrite (skip_ws_app w1 58 _ Hw1 eq_refl). eval_eqb.
      rewrite (skip_ws_app w2 h1 _ Hw2 (nonspace_not_ws _ Hh1)).
      change (h1 :: t1 ++ w3 ++ 125 :: rest')
        with ((h1 :: t1) ++ w3 ++ 125 :: rest').
      rewrite Hv; [| len | by apply stops_ws_delim].
      rewrite (skip_ws_app w3 125 _ Hw3 eq_refl). by eval_eqb.
    + destruct (ch =? 44) eqn:E44; [| done]. apply N.eqb_eq in E44 as ->.
      destruct (skip_ws_split r4) as (w4 & E5 & Hw4).
      apply IHm in H as (c2 & E6 & Hm). rewrite E6 in E5.
      exists (ck ++ 34 :: w1 ++ 58 :: w2 ++ (h1 :: t1) ++ w3 ++
              44 :: w4 ++ 34 :: c2).
      split; [rewrite E1, E2, E4, E5; by norm |].
      intros F' rest' HF. destruct F' as [|f']; [lia |].
      norm. cbn [parse_members]. eval_eqb. rewrite Hk.
      rewrite (skip_ws_app w1 58 _ Hw1 eq_refl). eval_eqb.
      rewrite (skip_ws_app w2 h1 _ Hw2 (nonspace_not_ws _ Hh1)).
      change (h1 :: t1 ++ w3 ++ 44 :: w4 ++ 34 :: c2 ++ 125 :: rest')
        with ((h1 :: t1) ++ w3 ++ 44 :: w4 ++ 34 :: c2 ++ 125 :: rest').
      rewrite Hv; [| len | by apply stops_ws_delim].
      rewrite (skip_ws_app w3 44 _ Hw3 eq_refl). eval_eqb.
      rewrite (skip_ws_app w4 34 _ Hw4 eq_refl).
      apply Hm. len.
  - intros acc x v rest H. cbn [parse_elems] in H.
    destruct (scan_once f x) as [[v1 r1]|] eqn:Ev; [| done].
    apply IHs in Ev as (c1 & -> & (h1 & t1 & -> & Hh1 & Hr1) & Hv).
    destruct (skip_ws r1) as [|ch r2] eqn:Esk1; [done |].
    destruct (skip_ws_split r1) as (w1 & E1 & Hw1). rewrite Esk1 in E1.
    destruct (ch =? 93) eqn:E93.
    + apply N.eqb_eq in E93 as ->. injection H as <- <-.
      exists h1, (t1 ++ w1). split; [rewrite E1; by norm |].
      intros F' rest' HF. destruct F' as [|f']; [lia |].
      norm. cbn [parse_elems].
      change (h1 :: t1 ++ w1 ++ 93 :: rest')
        with ((h1 :: t1) ++ w1 ++ 93 :: rest').
      rewrite Hv; [| len | by apply stops_ws_delim].
      rewrite (skip_ws_app w1 93 _ Hw1 eq_refl). by eval_eqb.
    + destruct (ch =? 44) eqn:E44; [| done]. apply N.eqb_eq in E44 as ->.
      destruct (skip_ws r2) as [|h2 r5] eqn:Esk2.
      { apply IHe in H as (? & ? & ? & _). done. }
      destruct (skip_ws_split r2) as (w2 & E2 & Hw2). rewrite Esk2 in E2.
      pose proof (skip_ws_head _ _ _ Esk2) as Hh2.
      apply IHe in H as (h2' & t2 & E3 & He). injection E3 as <- ->.
      exists h1, (t1 ++ w1 ++ 44 :: w2 ++ h2 :: t2).
      split; [rewrite E1, E2; by norm |].
      intros F' rest' HF. destruct F' as [|f']; [lia |].
      norm. cbn [parse_elems].
      change (h1 :: t1 ++ w1 ++ 44 :: w2 ++ h2 :: t2 ++ 93 :: rest')
        with ((h1 :: t1) ++ w1 ++ 44 :: w2 ++ h2 :: t2 ++ 93 :: rest').
      rewrite Hv; [| len | by apply stops_ws_delim].
      rewrite (skip_ws_app w1 44 _ Hw1 eq_refl). eval_eqb.
      rewrite (skip_ws_app w2 h2 _ Hw2 Hh2).
      apply He. len.
Qed.

(** One unit of fuel for each character is enough: a value that some
    amount of fuel finds before a stop is found by [scan_once] with as
    much fuel as the text is long. *)
Lemma scan_once_fuel F x v rest :
  scan_once F x = Some (v, rest) -> stops rest ->
  forall F', (length x <= F')%nat -> scan_once F' x = Some (v, rest).
Proof.
  intros H Hs F' HF.
  destruct (proj1 (scan_local F) _ _ _ H) as (c & -> & _ & Hloc).
  apply Hloc; [| done]. rewrite length_app in HF. lia.
Qed.

Lemma all_ws_stops rest : skip_ws rest = [] -> stops rest.
Proof.
  destruct rest as [|c r]; [done |]. simpl.
  destruct (json_ws c) eqn:E; [| done]. intros _. by apply (json_ws_stops c r).
Qed.

(** [json_loads] returns every value that the decoder finds with any
    amount of fuel. *)
Lemma json_loads_fuel s F v rest :
  scan_once F (skip_ws s) = Some (v, rest) -> skip_ws rest = [] ->
  json_loads s = Some v.
Proof.
  intros H Hr. unfold json_loads.
  rewrite (scan_once_fuel _ _ _ _ H (all_ws_stops _ Hr) _ (le_n _)).
  by rewrite Hr.
Qed.

(** A JSON text is a solid text between JSON whitespace; stripping it
    leaves the solid text, which is JSON for the same value. *)
Lemma json_loads_strip s v :
  json_loads s = Some v -> json_loads (strip s) = Some v.
Proof.
  unfold json_loads at 1. intros H.
  destruct (skip_ws_split s) as (w & Es & Hw).
  destruct (scan_once (length (skip_ws s)) (skip_ws s)) as [[v' rest]|] eqn:E;
    [| done].
  destruct (skip_ws rest) eqn:Er; [| done]. injection H as ->.
  destruct (proj1 (scan_local _) _ _ _ E) as (c & Ec & Hsolid & Hloc).
  apply skip_ws_nil in Er.
  assert (strip s = c) as ->.
  { rewrite Es, Ec.
    apply strip_solid; [by apply json_ws_all_isspace.. | done]. }
  destruct Hsolid as (h & t & -> & Hh & _).
  apply (json_loads_fuel _ (length (h :: t)) _ []); [| done].
  cbn [skip_ws]. rewrite (nonspace_not_ws _ Hh).
  rewrite <- (app_nil_r (h :: t)) at 2. by apply Hloc.
Qed.

(** ** The claims about the validator and the endpoint *)

Lemma elem_of_strs s l : in_strs (JStr s) l = true -> s ∈ l.
Proof. intros H. apply in_strs_true in H as (s' & [= <-] & Hin). done. Qed.

Lemma allowed_zone_label z :
  z ∈ ALLOWED_ZONES ->
  exists label, ZONE_LABELS !! z = Some label /\
                ZONE_LABELS_get (JStr z) = Return (Some label).
Proof.
  unfold ALLOWED_ZONES. intros Hz.
  repeat (apply elem_of_cons in Hz as [-> | Hz];
          [eexists; split; vm_compute; reflexivity |]).
  by apply elem_of_nil in Hz.
Qed.

Section Claims.

Variable generate_content : str -> gemini_reply.

(** C1 (as the code behaves): when the model replies with the example
    object (Heart Attack, Red, X, Y), [classify_with_gemini] returns
    the four values unchanged, but the handler of POST /analyze does
    not return the public response: it reads the key
    [patient_symptoms_line] of that dict for its third log line and
    leaves with [KeyError]. *)
Theorem analyze_heart_attack_reply_raises req :
  generate_content (complaint req) = GeminiText HEART_ATTACK_REPLY ->
  outcome_of (classify_with_gemini generate_content (complaint req)) =
    Return (<[ py "disease" := JStr (py "Heart Attack") ]>
            (<[ py "zone" := JStr (py "Red") ]>
            (<[ py "symptoms_line" := JStr (py "X") ]>
            (<[ py "action_line" := JStr (py "Y") ]> ∅)))) /\
  outcome_of (analyze generate_content req) =
    Raise (KeyError (py "patient_symptoms_line")).
Proof.
  intros Hg.
  assert (outcome_of (classify_with_gemini generate_content (complaint req)) =
    Return (<[ py "disease" := JStr (py "Heart Attack") ]>
            (<[ py "zone" := JStr (py "Red") ]>
            (<[ py "symptoms_line" := JStr (py "X") ]>
            (<[ py "action_line" := JStr (py "Y") ]> ∅))))) as Hc.
  { rewrite (classify_outcome _ _ _ Hg). vm_compute. reflexivity. }
  split; [exact Hc |]. exact (analyze_after_classify _ _ _ Hc).
Qed.

(** C2: whenever [classify_with_gemini] returns a dict, its disease is
    one of the 15 strings of [DISEASES] and its zone one of Red,
    Orange, Yellow; the zone is then a key of [ZONE_LABELS], so the
    label lookup finds it and its default is not used. *)
Theorem classify_result_in_closed_sets text r :
  outcome_of (classify_with_gemini generate_content text) = Return r ->
  exists d z label,
    r !! py "disease" = Some (JStr d) /\ d ∈ DISEASES /\
    r !! py "zone" = Some (JStr z) /\ z ∈ ALLOWED_ZONES /\
    ZONE_LABELS !! z = Some label /\
    ZONE_LABELS_get (JStr z) = Return (Some label).
Proof.
  intros Hc. apply classify_return in Hc as (reply & data & _ & _ & Hv).
  apply validate_return in Hv
    as (d0 & vd & vz & vs & va & -> & _ & _ & _ & _ & ->).
  assert (exists d, (if negb (in_strs vd DISEASES)
                     then JStr DEFAULT_DISEASE else vd) = JStr d
                    /\ d ∈ DISEASES) as (d & Ed & Hd).
  { destruct (in_strs vd DISEASES) eqn:E; simpl.
    - apply in_strs_true in E as (d & -> & Hd). eauto.
    - exists DEFAULT_DISEASE. split; [done |].
      apply elem_of_strs. vm_compute. reflexivity. }
  assert (exists z, (if negb (in_strs vz ALLOWED_ZONES)
                     then JStr DEFAULT_ZONE else vz) = JStr z
                    /\ z ∈ ALLOWED_ZONES) as (z & Ez & Hz).
  { destruct (in_strs vz ALLOWED_ZONES) eqn:E; simpl.
    - apply in_strs_true in E as (z & -> & Hz). eauto.
    - exists DEFAULT_ZONE. split; [done |].
      apply elem_of_strs. vm_compute. reflexivity. }
  destruct (allowed_zone_label z Hz) as (label & Hl & Hget).
  exists d, z, label.
  rewrite clamped_disease, clamped_zone, Ed, Ez. done.
Qed.

(** C3: when the reply parses to an object that has the four keys and
    whose disease value is not one of the 15 strings of [DISEASES]
    (a string that differs in any way, the empty string, or a value
    that is not a string), [classify_with_gemini] raises nothing and
    returns the default disease. *)
Theorem disease_out_of_list_clamped text reply d vd :
  generate_content text = GeminiText reply ->
  outcome_of (parse_reply (strip reply)) = Return (JDict d) ->
  (forall k, k ∈ REQUIRED_KEYS -> is_Some (d !! k)) ->
  d !! py "disease" = Some vd ->
  (forall s, s ∈ DISEASES -> vd <> JStr s) ->
  exists r,
    outcome_of (classify_with_gemini generate_content text) = Return r /\
    r !! py "disease" = Some (JStr (py "Viral Fever (without warning signs)")).
Proof.
  intros Hg Hp Hkeys Hd Hout.
  destruct (required_keys_lookup d Hkeys) as (vd' & vz & vs & va & Hd' & Hz & Hs & Ha).
  rewrite Hd in Hd'. injection Hd' as <-.
  exists (clamped vd vz vs va). split.
  - rewrite (classify_parsed _ _ _ _ Hg Hp).
    by rewrite (validate_dict _ _ _ _ _ Hd Hz Hs Ha).
  - rewrite clamped_disease.
    apply in_strs_false in Hout. by rewrite Hout.
Qed.

(** C4: when the reply parses to an object that has the four keys and
    whose zone value is not one of Red, Orange, Yellow,
    [classify_with_gemini] raises nothing and returns the zone
    Yellow. *)
Theorem zone_out_of_list_clamped text reply d vz :
  generate_content text = GeminiText reply ->
  outcome_of (parse_reply (strip reply)) = Return (JDict d) ->
  (forall k, k ∈ REQUIRED_KEYS -> is_Some (d !! k)) ->
  d !! py "zone" = Some vz ->
  (forall s, s ∈ ALLOWED_ZONES -> vz <> JStr s) ->
  exists r,
    outcome_of (classify_with_gemini generate_content text) = Return r /\
    r !! py "zone" = Some (JStr (py "Yellow")).
Proof.
  intros Hg Hp Hkeys Hz Hout.
  destruct (required_keys_lookup d Hkeys) as (vd & vz' & vs & va & Hd & Hz' & Hs & Ha).
  rewrite Hz in Hz'. injection Hz' as <-.
  exists (clamped vd vz vs va). split.
  - rewrite (classify_parsed _ _ _ _ Hg Hp).
    by rewrite (validate_dict _ _ _ _ _ Hd Hz Hs Ha).
  - rewrite clamped_zone.
    apply in_strs_false in Hout. by rewrite Hout.
Qed.

(** C5: when the reply parses to an object that has the four keys and
    whose disease value is exactly one of the 15 strings of
    [DISEASES], [classify_with_gemini] returns that disease
    unchanged. *)
Theorem disease_in_list_unchanged text reply d s :
  generate_content text = GeminiText reply ->
  outcome_of (parse_reply (strip reply)) = Return (JDict d) ->
  (forall k, k ∈ REQUIRED_KEYS -> is_Some (d !! k)) ->
  d !! py "disease" = Some (JStr s) ->
  s ∈ DISEASES ->
  exists r,
    outcome_of (classify_with_gemini generate_content text) = Return r /\
    r !! py "disease" = Some (JStr s).
Proof.
  intros Hg Hp Hkeys Hd Hin.
  destruct (required_keys_lookup d Hkeys) as (vd' & vz & vs & va & Hd' & Hz & Hs & Ha).
  rewrite Hd in Hd'. injection Hd' as <-.
  exists (clamped (JStr s) vz vs va). split.
  - rewrite (classify_parsed _ _ _ _ Hg Hp).
    by rewrite (validate_dict _ _ _ _ _ Hd Hz Hs Ha).
  - rewrite clamped_disease.
    assert (in_strs (JStr s) DISEASES = true) as ->; [| done].
    apply in_strs_true. eauto.
Qed.

(** C6: when the reply parses to an object in which one of the four
    required keys is missing, [classify_with_gemini] returns nothing:
    it raises the RuntimeError whose message ends with a required key
    that the object does not have. *)
Theorem missing_key_raises text reply d :
  generate_content text = GeminiText reply ->
  outcome_of (parse_reply (strip reply)) = Return (JDict d) ->
  (exists k, k ∈ REQUIRED_KEYS /\ d !! k = None) ->
  exists k,
    k ∈ REQUIRED_KEYS /\ d !! k = None /\
    outcome_of (classify_with_gemini generate_content text) =
      Raise (RuntimeError (py "Missing key in Gemini response: " ++ k)).
Proof.
  intros Hg Hp Hmiss.
  apply first_missing_split in Hmiss as (pre & k & post & E & Hpre & Hk).
  exists k. split; [rewrite E; apply elem_of_app; right; left |].
  split; [done |].
  rewrite (classify_parsed _ _ _ _ Hg Hp). unfold validate.
  apply outcome_bind_raise. rewrite E.
  by rewrite (check_keys_first_missing _ _ _ _ Hpre Hk).
Qed.

(** C7: when the stripped reply is not JSON and the text left after
    removing the code-fence markers is not JSON either,
    [classify_with_gemini] raises the decoder's error and the handler
    of POST /analyze fails with it; nothing is returned. *)
Theorem unparseable_reply_fails req reply :
  generate_content (complaint req) = GeminiText reply ->
  json_loads (strip reply) = None ->
  json_loads (cleaned (strip reply)) = None ->
  outcome_of (classify_with_gemini generate_content (complaint req)) =
    Raise JSONDecodeError /\
  outcome_of (analyze generate_content req) = Raise JSONDecodeError.
Proof.
  intros Hg H1 H2.
  assert (outcome_of (classify_with_gemini generate_content (complaint req)) =
          Raise JSONDecodeError) as Hc.
  { rewrite (classify_outcome _ _ _ Hg). apply outcome_bind_raise.
    unfold parse_reply. by rewrite H1, H2. }
  split; [done |]. by apply analyze_when_classify_raises.
Qed.

(** C10: when keys are missing from the parsed object, the error names
    one key only, the first missing one in the order disease, zone,
    symptoms_line, action_line: every key checked before it is
    present, whatever is missing after it. *)
Theorem missing_key_names_first text reply d pre k post :
  generate_content text = GeminiText reply ->
  outcome_of (parse_reply (strip reply)) = Return (JDict d) ->
  [py "disease"; py "zone"; py "symptoms_line"; py "action_line"] =
    pre ++ k :: post ->
  (forall k', k' ∈ pre -> is_Some (d !! k')) ->
  d !! k = None ->
  outcome_of (classify_with_gemini generate_content text) =
    Raise (RuntimeError (py "Missing key in Gemini response: " ++ k)).
Proof.
  intros Hg Hp E Hpre Hk.
  rewrite (classify_parsed _ _ _ _ Hg Hp). unfold validate.
  apply outcome_bind_raise. unfold REQUIRED_KEYS. rewrite E.
  by rewrite (check_keys_first_missing _ _ _ _ Hpre Hk).
Qed.

End Claims.

(** ** The claims about the code-fence fallback *)

(** C8 as stated fails: a JSON object whose symptoms_line holds the
    marker parses to that object when fed as it is, and to an object with
    a different symptoms_line when fed inside a code fence. *)
Lemma fenced_reply_with_marker_differs :
  json_loads MARKER_REPLY =
    Some (JDict (reply_dict (JStr (py "Heart Attack")) (JStr (py "Red"))
                            (JStr (py "a```b")) (JStr (py "Y")))) /\
  outcome_of (parse_reply (strip MARKER_REPLY)) =
    Return (JDict (reply_dict (JStr (py "Heart Attack")) (JStr (py "Red"))
                              (JStr (py "a```b")) (JStr (py "Y")))) /\
  outcome_of (parse_reply (strip (fenced MARKER_REPLY))) =
    Return (JDict (reply_dict (JStr (py "Heart Attack")) (JStr (py "Red"))
                              (JStr (py "ab")) (JStr (py "Y")))) /\
  outcome_of (parse_reply (strip (fenced MARKER_REPLY))) <>
    outcome_of (parse_reply (strip MARKER_REPLY)).
Proof.
  assert (outcome_of (parse_reply (strip MARKER_REPLY)) =
    Return (JDict (reply_dict (JStr (py "Heart Attack")) (JStr (py "Red"))
                              (JStr (py "a```b")) (JStr (py "Y"))))) as E1
    by (vm_compute; reflexivity).
  assert (outcome_of (parse_reply (strip (fenced MARKER_REPLY))) =
    Return (JDict (reply_dict (JStr (py "Heart Attack")) (JStr (py "Red"))
                              (JStr (py "ab")) (JStr (py "Y"))))) as E2
    by (vm_compute; reflexivity).
  split; [vm_compute; reflexivity |]. split; [exact E1 |].
  split; [exact E2 |].
  rewrite E1, E2. intros H.
  apply (f_equal (fun o : outcome json =>
                    match o with
                    | Return (JDict d) => d !! py "symptoms_line"
                    | _ => None
                    end)) in H.
  vm_compute in H. discriminate H.
Qed.

(** A text that holds no marker, JSON or not, parses inside a json code
    fence exactly as it parses without the fence. *)
Lemma fenced_outcome_as_plain s :
  occurs FENCE s = false ->
  parse_reply (strip (fenced s)) = parse_reply (strip s).
Proof.
  intros Hs. rewrite strip_fenced. unfold parse_reply.
  rewrite json_loads_fenced, (cleaned_fenced _ Hs), (cleaned_plain _ Hs).
  by destruct (json_loads (strip s)).
Qed.

(** C8 (amended): for every JSON text that holds no marker, feeding it
    inside a json code fence and feeding it without the fence both parse
    to one and the same object, the value of the text. *)
Theorem fenced_parses_as_plain s v :
  json_loads s = Some v ->
  occurs FENCE s = false ->
  parse_reply (strip (fenced s)) = ret v /\
  parse_reply (strip s) = ret v.
Proof.
  intros Hv Hs. rewrite (fenced_outcome_as_plain _ Hs).
  by rewrite (parse_reply_direct _ _ (json_loads_strip _ _ Hv)).
Qed.

(** [s.replace(old, "")] cuts [s] at occurrences of [old] and joins the
    pieces: [s] is the pieces joined by [old], the result is the pieces
    joined by nothing, and no piece holds [old]. *)
Lemma replace_pieces old s :
  old <> [] ->
  exists ps,
    s = join old ps /\
    replace old [] s = concat ps /\
    Forall (fun p => occurs old p = false) ps.
Proof.
  intros Hold.
  assert (replace old [] s = replace_from old [] 0 s) as ->
    by (by destruct old).
  assert (occurs old [] = false) as Hnil by (by destruct old).
  remember (length s) as n eqn:Hn. revert s Hn.
  induction n as [n IH] using lt_wf_ind. intros s ->.
  destruct s as [|c s].
  { exists [[]]. split; [done |]. split; [done |]. by constructor. }
  destruct (startswith old (c :: s)) eqn:Hs.
  - apply startswith_iff in Hs as [t Ht]. rewrite Ht.
    assert (length t < length (c :: s))%nat as Hlt.
    { rewrite Ht, length_app. destruct old; [done | simpl; lia]. }
    destruct (IH _ Hlt t eq_refl) as (ps & E & R & F).
    rewrite (replace_from_match _ _ _ Hold), R. cbn [app].
    destruct ps as [|p ps].
    + exists [[]; []]. simpl in E. subst t. split; [done |]. split; [done |].
      by repeat constructor.
    + exists ([] :: p :: ps). rewrite E. split; [done |]. split; [done |].
      by constructor.
  - assert (length s < length (c :: s))%nat as Hlt by (simpl; lia).
    destruct (IH _ Hlt s eq_refl) as (ps & E & R & F).
    assert (replace_from old [] 0 (c :: s) = c :: replace_from old [] 0 s)
      as ->.
    { change (replace_from old [] 0 (c :: s)) with
        (if startswith old (c :: s)
         then [] ++ replace_from old [] (length old - 1) s
         else c :: replace_from old [] 0 s).
      by rewrite Hs. }
    destruct ps as [|p ps].
    + simpl in E. subst s. exists [[c]]. split; [done |]. split.
      * by rewrite R.
      * constructor; [| done]. cbn [occurs]. rewrite Hs.
        exact Hnil.
    + exists ((c :: p) :: ps). split; [| split].
      * rewrite E. by destruct ps.
      * rewrite R. done.
      * apply Forall_cons in F as [Hp Hps]. constructor; [| done].
        cbn [occurs]. rewrite Hp, orb_false_r.
        apply not_true_iff_false. intros [u Hu]%startswith_iff.
        apply not_true_iff_false in Hs. apply Hs, startswith_iff.
        rewrite E. destruct ps as [|p' ps].
        -- exists u. cbn [join]. by rewrite Hu.
        -- exists (u ++ old ++ join old (p' :: ps)).
           change (join old (p :: p' :: ps)) with
             (p ++ old ++ join old (p' :: ps)).
           rewrite app_comm_cons, Hu. by rewrite <- app_assoc.
Qed.

(** C9: when the direct parse of the reply fails, the text parsed next
    is the reply with every marker replaced by nothing, then stripped.
    The markers are removed wherever they stand and nothing else is:
    the reply is pieces without the json marker joined by that marker,
    these pieces put together are pieces without the plain marker
    joined by that marker, and the text parsed is those pieces put
    together and stripped; neither marker occurs anywhere in it. *)
Theorem fallback_removes_markers raw_text :
  json_loads raw_text = None ->
  parse_reply raw_text =
    match json_loads (cleaned raw_text) with
    | Some data => ret data
    | None => raise JSONDecodeError
    end /\
  cleaned raw_text =
    strip (replace (py "```") [] (replace (py "```json") [] raw_text)) /\
  occurs (py "```") (cleaned raw_text) = false /\
  occurs (py "```json") (cleaned raw_text) = false /\
  exists ps qs,
    raw_text = join (py "```json") ps /\
    Forall (fun p => occurs (py "```json") p = false) ps /\
    concat ps = join (py "```") qs /\
    Forall (fun q => occurs (py "```") q = false) qs /\
    cleaned raw_text = strip (concat qs).
Proof.
  intros H. unfold parse_reply. rewrite H.
  split; [done |]. split; [done |].
  destruct (cleaned_no_marker raw_text) as [H1 H2].
  split; [exact H1 |]. split; [exact H2 |].
  destruct (replace_pieces FENCE_JSON raw_text FENCE_JSON_nonempty)
    as (ps & E1 & R1 & F1).
  destruct (replace_pieces FENCE (concat ps) FENCE_nonempty)
    as (qs & E2 & R2 & F2).
  exists ps, qs. unfold cleaned. rewrite R1, R2. done.
Qed.

(** ** The statements at concrete replies *)

Lemma analyze_heart_attack_reply_raises_witness :
  let generate_content := fun _ : str => GeminiText HEART_ATTACK_REPLY in
  let req := {| complaint := py "chest pain" |} in
  outcome_of (classify_with_gemini generate_content (complaint req)) =
    Return (<[ py "disease" := JStr (py "Heart Attack") ]>
            (<[ py "zone" := JStr (py "Red") ]>
            (<[ py "symptoms_line" := JStr (py "X") ]>
            (<[ py "action_line" := JStr (py "Y") ]> ∅)))) /\
  outcome_of (analyze generate_content req) =
    Raise (KeyError (py "patient_symptoms_line")).
Proof.
  intros generate_content req.
  apply (analyze_heart_attack_reply_raises generate_content req).
  reflexivity.
Defined.

Lemma classify_result_in_closed_sets_witness :
  exists d z label,
    reply_dict (JStr DEFAULT_DISEASE) (JStr DEFAULT_ZONE) (JStr (py "X"))
               (JStr (py "Y")) !! py "disease" = Some (JStr d) /\
    d ∈ DISEASES /\
    reply_dict (JStr DEFAULT_DISEASE) (JStr DEFAULT_ZONE) (JStr (py "X"))
               (JStr (py "Y")) !! py "zone" = Some (JStr z) /\
    z ∈ ALLOWED_ZONES /\
    ZONE_LABELS !! z = Some label /\
    ZONE_LABELS_get (JStr z) = Return (Some label).
Proof.
  apply (classify_result_in_closed_sets (fun _ => GeminiText FLU_REPLY)
           (py "fever")).
  vm_compute. reflexivity.
Defined.

Lemma flu_reply_parsed :
  outcome_of (parse_reply (strip FLU_REPLY)) =
  Return (JDict (reply_dict (JStr (py "Flu")) (JStr (py "Critical"))
                            (JStr (py "X")) (JStr (py "Y")))).
Proof. vm_compute. reflexivity. Qed.

Lemma heart_attack_reply_parsed :
  outcome_of (parse_reply (strip HEART_ATTACK_REPLY)) =
  Return (JDict (reply_dict (JStr (py "Heart Attack")) (JStr (py "Red"))
                            (JStr (py "X")) (JStr (py "Y")))).
Proof. vm_compute. reflexivity. Qed.

Lemma incomplete_reply_parsed :
  outcome_of (parse_reply (strip INCOMPLETE_REPLY)) =
  Return (JDict (<[ py "symptoms_line" := JStr (py "X") ]>
                 (<[ py "disease" := JStr (py "Heart Attack") ]> ∅))).
Proof. vm_compute. reflexivity. Qed.

Lemma reply_dict_has_keys vd vz vs va k :
  k ∈ REQUIRED_KEYS -> is_Some (reply_dict vd vz vs va !! k).
Proof.
  unfold REQUIRED_KEYS. intros Hk.
  repeat (apply elem_of_cons in Hk as [-> | Hk];
          [eexists; vm_compute; reflexivity |]).
  by apply elem_of_nil in Hk.
Qed.

Lemma disease_out_of_list_clamped_witness :
  exists r,
    outcome_of (classify_with_gemini (fun _ => GeminiText FLU_REPLY)
                                     (py "fever")) = Return r /\
    r !! py "disease" = Some (JStr (py "Viral Fever (without warning signs)")).
Proof.
  apply (disease_out_of_list_clamped (fun _ => GeminiText FLU_REPLY)
           (py "fever") FLU_REPLY _ (JStr (py "Flu")) eq_refl flu_reply_parsed).
  - apply reply_dict_has_keys.
  - vm_compute. reflexivity.
  - apply in_strs_false. vm_compute. reflexivity.
Defined.

Lemma zone_out_of_list_clamped_witness :
  exists r,
    outcome_of (classify_with_gemini (fun _ => GeminiText FLU_REPLY)
                                     (py "fever")) = Return r /\
    r !! py "zone" = Some (JStr (py "Yellow")).
Proof.
  apply (zone_out_of_list_clamped (fun _ => GeminiText FLU_REPLY)
           (py "fever") FLU_REPLY _ (JStr (py "Critical")) eq_refl
           flu_reply_parsed).
  - apply reply_dict_has_keys.
  - vm_compute. reflexivity.
  - apply in_strs_false. vm_compute. reflexivity.
Defined.

Lemma disease_in_list_unchanged_witness :
  exists r,
    outcome_of (classify_with_gemini (fun _ => GeminiText HEART_ATTACK_REPLY)
                                     (py "chest pain")) = Return r /\
    r !! py "disease" = Some (JStr (py "Heart Attack")).
Proof.
  apply (disease_in_list_unchanged (fun _ => GeminiText HEART_ATTACK_REPLY)
           (py "chest pain") HEART_ATTACK_REPLY _ (py "Heart Attack") eq_refl
           heart_attack_reply_parsed).
  - apply reply_dict_has_keys.
  - vm_compute. reflexivity.
  - apply elem_of_strs. vm_compute. reflexivity.
Defined.

Lemma missing_key_raises_witness :
  exists k,
    k ∈ REQUIRED_KEYS /\
    (<[ py "symptoms_line" := JStr (py "X") ]>
     (<[ py "disease" := JStr (py "Heart Attack") ]> ∅) : gmap str json)
      !! k = None /\
    outcome_of (classify_with_gemini (fun _ => GeminiText INCOMPLETE_REPLY)
                                     (py "chest pain")) =
      Raise (RuntimeError (py "Missing key in Gemini response: " ++ k)).
Proof.
  apply (missing_key_raises (fun _ => GeminiText INCOMPLETE_REPLY)
           (py "chest pain") INCOMPLETE_REPLY _ eq_refl
           incomplete_reply_parsed).
  exists (py "action_line"). split.
  - unfold REQUIRED_KEYS. by do 3 right; left.
  - vm_compute. reflexivity.
Defined.

Lemma unparseable_reply_fails_witness :
  let generate_content := fun _ : str => GeminiText PROSE_REPLY in
  let req := {| complaint := py "fever" |} in
  outcome_of (classify_with_gemini generate_content (complaint req)) =
    Raise JSONDecodeError /\
  outcome_of (analyze generate_content req) = Raise JSONDecodeError.
Proof.
  intros generate_content req.
  apply (unparseable_reply_fails generate_content req PROSE_REPLY eq_refl).
  - vm_compute. reflexivity.
  - vm_compute. reflexivity.
Defined.

Lemma missing_key_names_first_witness :
  outcome_of (classify_with_gemini (fun _ => GeminiText INCOMPLETE_REPLY)
                                   (py "chest pain")) =
    Raise (RuntimeError (py "Missing key in Gemini response: " ++ py "zone")).
Proof.
  apply (missing_key_names_first (fun _ => GeminiText INCOMPLETE_REPLY)
           (py "chest pain") INCOMPLETE_REPLY _ [py "disease"] (py "zone")
           [py "symptoms_line"; py "action_line"] eq_refl
           incomplete_reply_parsed eq_refl).
  - intros k' Hk. apply elem_of_cons in Hk as [-> | Hk].
    + eexists. vm_compute. reflexivity.
    + by apply elem_of_nil in Hk.
  - vm_compute. reflexivity.
Defined.

Lemma fenced_parses_as_plain_witness :
  parse_reply (strip (fenced HEART_ATTACK_REPLY)) =
    ret (JDict (reply_dict (JStr (py "Heart Attack")) (JStr (py "Red"))
                           (JStr (py "X")) (JStr (py "Y")))) /\
  parse_reply (strip HEART_ATTACK_REPLY) =
    ret (JDict (reply_dict (JStr (py "Heart Attack")) (JStr (py "Red"))
                           (JStr (py "X")) (JStr (py "Y")))).
Proof.
  apply (fenced_parses_as_plain HEART_ATTACK_REPLY).
  - vm_compute. reflexivity.
  - vm_compute. reflexivity.
Defined.

Lemma fallback_removes_markers_witness :
  (parse_reply (fenced MARKER_REPLY) =
     match json_loads (cleaned (fenced MARKER_REPLY)) with
     | Some data => ret data
     | None => raise JSONDecodeError
     end /\
   cleaned (fenced MARKER_REPLY) =
     strip (replace (py "```") []
              (replace (py "```json") [] (fenced MARKER_REPLY))) /\
   occurs (py "```") (cleaned (fenced MARKER_REPLY)) = false /\
   occurs (py "```json") (cleaned (fenced MARKER_REPLY)) = false /\
   exists ps qs,
     fenced MARKER_REPLY = join (py "```json") ps /\
     Forall (fun p => occurs (py "```json") p = false) ps /\
     concat ps = join (py "```") qs /\
     Forall (fun q => occurs (py "```") q = false) qs /\
     cleaned (fenced MARKER_REPLY) = strip (concat qs)) /\
  cleaned (fenced MARKER_REPLY) =
    dq "{'disease':'Heart Attack','zone':'Red','symptoms_line':'ab','action_line':'Y'}".
Proof.
  split.
  - apply (fallback_removes_markers (fenced MARKER_REPLY)).
    vm_compute. reflexivity.
  - vm_compute. reflexivity.
Defined.

(** * Further properties of the service *)

(** ** Output of the computations *)

Lemma events_bind {A B} (m : M A) (k : A -> M B) :
  events (m ≫= k) =
  events m ++ match outcome_of m with
              | Return a => events (k a)
              | Raise _ => []
              end.
Proof.
  destruct m as [evs [a|e]]; unfold mbind, M_bind, bind; simpl.
  - by destruct (k a).
  - by rewrite app_nil_r.
Qed.

Lemma M_eta {A} (m : M A) : m = (events m, outcome_of m).
Proof. by destruct m. Qed.

(** ** The key check and the validator on any value *)

Lemma check_keys_raise keys data e :
  outcome_of (check_keys keys data) = Raise e ->
  e = TypeError \/
  exists k, k ∈ keys /\
            e = RuntimeError (py "Missing key in Gemini response: " ++ k).
Proof.
  induction keys as [|k keys IH]; [done |]. cbn [check_keys].
  destruct (contains k data) as [[]|e'] eqn:Ec.
  - rewrite (outcome_bind_return _ _ true) by done. cbn [negb].
    intros H. destruct (IH H) as [-> | (k' & Hk' & ->)]; [by left |].
    right. exists k'. split; [by right | done].
  - rewrite (outcome_bind_return _ _ false) by done. cbn [negb].
    intros [= <-]. right. exists k. split; [by left | done].
  - rewrite (outcome_bind_raise _ _ e') by done. intros [= <-].
    left. destruct data; simpl in Ec; congruence.
Qed.

Lemma check_keys_return keys data :
  outcome_of (check_keys keys data) = Return tt ->
  forall k, k ∈ keys -> contains k data = Return true.
Proof.
  induction keys as [|k0 keys IH]; intros H k Hk.
  { by apply elem_of_nil in Hk. }
  cbn [check_keys] in H.
  destruct (contains k0 data) as [[]|e'] eqn:Ec.
  - rewrite (outcome_bind_return _ _ true) in H by done. cbn [negb] in H.
    apply elem_of_cons in Hk as [-> | Hk]; [done | by apply IH].
  - by rewrite (outcome_bind_return _ _ false) in H.
  - by rewrite (outcome_bind_raise _ _ e') in H.
Qed.

Lemma check_keys_contained keys data :
  (forall k, k ∈ keys -> contains k data = Return true) ->
  check_keys keys data = ret tt.
Proof.
  intros Hall. induction keys as [|k keys IH]; [done |]. cbn [check_keys].
  rewrite (Hall k) by (by left).
  unfold mbind, M_bind, bind; simpl.
  rewrite IH; [done |]. intros k' Hin. apply Hall. by right.
Qed.

Lemma contains_dict d k :
  contains k (JDict d) = Return true -> is_Some (d !! k).
Proof. simpl. intros [= H]. by apply bool_decide_eq_true in H. Qed.

(** The exceptions that leave [validate]. *)
Lemma validate_raise data e :
  outcome_of (validate data) = Raise e ->
  e = TypeError \/
  exists k, k ∈ REQUIRED_KEYS /\
            e = RuntimeError (py "Missing key in Gemini response: " ++ k).
Proof.
  unfold validate.
  destruct (outcome_of (check_keys REQUIRED_KEYS data)) as [[]|e'] eqn:Ec.
  2: { rewrite (outcome_bind_raise _ _ e') by done. intros [= <-].
       by apply (check_keys_raise _ _ _ Ec). }
  rewrite (outcome_bind_return _ _ tt) by done.
  pose proof (check_keys_return _ _ Ec) as Hall.
  destruct data; try (intros [= <-]; by left).
  assert (forall k, k ∈ REQUIRED_KEYS -> is_Some (d !! k)) as Hkeys
    by (intros k Hk; by apply contains_dict, Hall).
  destruct (required_keys_lookup d Hkeys) as (vd & vz & vs & va & Hd & Hz & Hs & Ha).
  cbn [getitem]. rewrite Hd, Hz, Hs, Ha. done.
Qed.

Lemma strip_all_space w : forallb isspace w = true -> strip w = [].
Proof. intros H. unfold strip. by rewrite (lstrip_all_space _ H). Qed.

(** Whitespace on either side of a text is stripped with the whitespace
    the text has itself. *)
Lemma strip_padding w1 s w2 :
  forallb isspace w1 = true -> forallb isspace w2 = true ->
  strip (w1 ++ s ++ w2) = strip s.
Proof.
  intros H1 H2. unfold strip. rewrite lstrip_app, H1, lstrip_app.
  destruct (forallb isspace s) eqn:E.
  - by rewrite (lstrip_all_space _ H2), (lstrip_all_space _ E).
  - by apply rstrip_app_space.
Qed.

Lemma strip_plain_fenced s : strip (plain_fenced s) = plain_fenced s.
Proof.
  assert (plain_fenced s = 96 :: ([96; 96; 10] ++ s ++ [10; 96; 96]) ++ [96])
    as ->.
  { unfold plain_fenced. rewrite FENCE_chars, <- !app_assoc. reflexivity. }
  by apply strip_id.
Qed.

Lemma json_loads_plain_fenced s : json_loads (plain_fenced s) = None.
Proof. reflexivity. Qed.

Lemma cleaned_plain_fenced s :
  occurs FENCE s = false -> cleaned (plain_fenced s) = strip s.
Proof.
  intros Hs. unfold cleaned, plain_fenced.
  assert (occurs FENCE_JSON s = false) as Hj.
  { rewrite FENCE_JSON_chars. by apply occurs_longer. }
  assert (replace FENCE_JSON [] (FENCE ++ [10] ++ s ++ [10] ++ FENCE) =
          FENCE ++ 10 :: s ++ 10 :: FENCE) as ->.
  { apply replace_from_absent.
    change (occurs FENCE_JSON (FENCE ++ 10 :: (s ++ 10 :: FENCE)) = false).
    rewrite (occurs_sep _ _ FENCE_JSON_nonempty FENCE_JSON_no_newline FENCE _).
    rewrite (occurs_sep _ _ FENCE_JSON_nonempty FENCE_JSON_no_newline s _).
    rewrite Hj. reflexivity. }
  assert (replace FENCE [] (FENCE ++ 10 :: s ++ 10 :: FENCE) = 10 :: s ++ [10])
    as ->.
  { change (replace_from FENCE [] 0 (FENCE ++ 10 :: (s ++ 10 :: FENCE)) =
            10 :: s ++ [10]).
    rewrite (replace_from_sep _ _ FENCE_nonempty FENCE_no_newline [] FENCE _
               0%nat) by (cbn; lia).
    rewrite (replace_from_sep _ _ FENCE_nonempty FENCE_no_newline [] s _ 0%nat)
      by lia.
    by rewrite (replace_from_absent _ _ _ Hs). }
  apply strip_newlines.
Qed.

Lemma clamp_idempotent v l s0 :
  in_strs (JStr s0) l = true ->
  in_strs (if negb (in_strs v l) then JStr s0 else v) l = true.
Proof. intros H0. by destruct (in_strs v l) eqn:E. Qed.

Lemma clamped_zone_allowed vz :
  exists z,
    (if negb (in_strs vz ALLOWED_ZONES) then JStr DEFAULT_ZONE else vz) = JStr z
    /\ z ∈ ALLOWED_ZONES.
Proof.
  destruct (in_strs vz ALLOWED_ZONES) eqn:E; cbn [negb].
  - apply in_strs_true in E as (z & -> & Hz). eauto.
  - exists DEFAULT_ZONE. split; [done |].
    apply elem_of_strs. vm_compute. reflexivity.
Qed.

Lemma clamped_disease_allowed vd :
  exists d,
    (if negb (in_strs vd DISEASES) then JStr DEFAULT_DISEASE else vd) = JStr d
    /\ d ∈ DISEASES.
Proof.
  destruct (in_strs vd DISEASES) eqn:E; cbn [negb].
  - apply in_strs_true in E as (d & -> & Hd). eauto.
  - exists DEFAULT_DISEASE. split; [done |].
    apply elem_of_strs. vm_compute. reflexivity.
Qed.

Section FurtherFacts.

Variable generate_content : str -> gemini_reply.

(** X1: when the model call fails, [classify_with_gemini] prints the
    cause once and raises RuntimeError "Gemini call failed"; the handler
    has printed its marker and logged the complaint before, logs no more,
    and fails with the same error. *)
Theorem gateway_failure req cause :
  generate_content (complaint req) = GeminiError cause ->
  classify_with_gemini generate_content (complaint req) =
    ([Print [py "Gemini API error:"; cause]],
     Raise (RuntimeError (py "Gemini call failed"))) /\
  analyze generate_content req =
    ([Print [py "bhavana"];
      LogInfo (py "User Complaint: ") (JStr (complaint req));
      Print [py "Gemini API error:"; cause]],
     Raise (RuntimeError (py "Gemini call failed"))).
Proof.
  intros Hg.
  assert (classify_with_gemini generate_content (complaint req) =
    ([Print [py "Gemini API error:"; cause]],
     Raise (RuntimeError (py "Gemini call failed")))) as Hc.
  { unfold classify_with_gemini, call_gemini. by rewrite Hg. }
  split; [exact Hc |]. unfold analyze. by rewrite Hc.
Qed.

(** A classification that returns has printed and logged nothing. *)
Lemma classify_return_silent text r :
  outcome_of (classify_with_gemini generate_content text) = Return r ->
  classify_with_gemini generate_content text = ([], Return r).
Proof.
  intros Hc. rewrite (M_eta (classify_with_gemini _ _)), Hc. f_equal.
  apply classify_return in Hc as (reply & data & Hg & Hp & Hv).
  unfold classify_with_gemini, call_gemini. rewrite Hg.
  rewrite events_bind. cbn [events outcome_of ret fst snd app].
  rewrite events_bind, parse_reply_events, Hp. apply validate_events.
Qed.

(** X2: a KeyError at the endpoint is always the handler's own.
    [classify_with_gemini] raises no KeyError: the model call's
    exceptions are turned into RuntimeError, the decoder's failure is no
    KeyError, and every [data[...]] comes after the key loop, which on
    an object has found the key, while a list or string that passes the
    loop cannot be indexed by a string (TypeError).  So when the handler
    raises KeyError, the key is 'patient_symptoms_line' and the
    classification had returned. *)
Theorem key_error_only_from_handler req k :
  outcome_of (classify_with_gemini generate_content (complaint req)) <>
    Raise (KeyError k) /\
  (outcome_of (analyze generate_content req) = Raise (KeyError k) ->
   k = py "patient_symptoms_line" /\
   exists r,
     outcome_of (classify_with_gemini generate_content (complaint req)) =
       Return r).
Proof.
  assert (forall k',
    outcome_of (classify_with_gemini generate_content (complaint req)) <>
      Raise (KeyError k')) as Hno.
  { intros k'. unfold classify_with_gemini, call_gemini.
    destruct (generate_content (complaint req)) as [reply|cause]; [| done].
    rewrite (outcome_bind_return _ _ (strip reply)) by done.
    destruct (outcome_of (parse_reply (strip reply))) as [data|e'] eqn:Ep.
    - rewrite (outcome_bind_return _ _ data) by done. intros H.
      by destruct (validate_raise _ _ H) as [? | (k0 & _ & ?)].
    - rewrite (outcome_bind_raise _ _ e') by done. intros [= ->].
      unfold parse_reply in Ep.
      destruct (json_loads (strip reply)); [done |].
      by destruct (json_loads (cleaned (strip reply))). }
  split; [apply Hno |]. intros Ha.
  destruct (outcome_of (classify_with_gemini generate_content (complaint req)))
    as [r|e] eqn:Hc.
  - rewrite (analyze_after_classify _ _ r Hc) in Ha.
    injection Ha as <-. eauto.
  - rewrite (analyze_when_classify_raises _ _ e Hc) in Ha.
    injection Ha as ->. by destruct (Hno k).
Qed.
(** X3: no request is answered.  Whatever the model does, the handler
    raises: the exception of [classify_with_gemini] when that raises,
    and KeyError 'patient_symptoms_line' when it returns. *)
Theorem analyze_always_raises req :
  exists e,
    outcome_of (analyze generate_content req) = Raise e /\
    (outcome_of (classify_with_gemini generate_content (complaint req)) =
       Raise e \/
     e = KeyError (py "patient_symptoms_line") /\
     exists r,
       outcome_of (classify_with_gemini generate_content (complaint req)) =
         Return r).
Proof.
  destruct (outcome_of (classify_with_gemini generate_content (complaint req)))
    as [r|e] eqn:Hc.
  - exists (KeyError (py "patient_symptoms_line")).
    split; [by apply (analyze_after_classify _ _ r) |]. right. eauto.
  - exists e. split; [by apply analyze_when_classify_raises | by left].
Qed.

(** X4: when the classification returns, the handler has printed its
    marker and logged the complaint and the zone, in this order, and
    nothing else: the symptoms line is never logged. *)
Theorem analyze_trace req r :
  outcome_of (classify_with_gemini generate_content (complaint req)) =
    Return r ->
  exists z,
    r !! py "zone" = Some (JStr z) /\ z ∈ ALLOWED_ZONES /\
    analyze generate_content req =
      ([Print [py "bhavana"];
        LogInfo (py "User Complaint: ") (JStr (complaint req));
        LogInfo (py "AI Response Zone: ") (JStr z)],
       Raise (KeyError (py "patient_symptoms_line"))).
Proof.
  intros Hc. pose proof (classify_return_silent _ _ Hc) as Hsilent.
  apply classify_return in Hc as (reply & data & _ & _ & Hv).
  apply validate_return in Hv
    as (d0 & vd & vz & vs & va & _ & _ & _ & _ & _ & ->).
  destruct (clamped_zone_allowed vz) as (z & Ez & Hin).
  assert (clamped vd vz vs va !! py "zone" = Some (JStr z)) as Hz
    by (by rewrite clamped_zone, Ez).
  exists z. split; [done |]. split; [done |].
  assert (clamped vd vz vs va !! py "patient_symptoms_line" = None) as Hnone.
  { apply clamped_other. unfold REQUIRED_KEYS. intros Hk.
    repeat (apply elem_of_cons in Hk as [Hk | Hk];
            [vm_compute in Hk; discriminate Hk |]).
    by apply elem_of_nil in Hk. }
  unfold analyze. rewrite Hsilent.
  unfold mbind, M_bind, bind, emit, lift. cbn [getitem].
  by rewrite Hz, Hnone.
Qed.

(** X5: a reply that is JSON but not an object is never validated:
    [validate] raises TypeError, or the RuntimeError of a required key
    that the value does not contain. *)
Theorem validate_non_object data :
  (forall d, data <> JDict d) ->
  outcome_of (validate data) = Raise TypeError \/
  exists k, k ∈ REQUIRED_KEYS /\
            contains k data = Return false /\
            outcome_of (validate data) =
              Raise (RuntimeError (py "Missing key in Gemini response: " ++ k)).
Proof.
  intros Hd. unfold validate.
  destruct (outcome_of (check_keys REQUIRED_KEYS data)) as [[]|e] eqn:Ec.
  - left. rewrite (outcome_bind_return _ _ tt) by done.
    destruct data; try done. by destruct (Hd d).
  - rewrite (outcome_bind_raise _ _ e) by done.
    clear Hd. revert Ec. generalize REQUIRED_KEYS as keys.
    induction keys as [|k keys IH]; [done |]. cbn [check_keys].
    destruct (contains k data) as [[]|e'] eqn:E.
    + rewrite (outcome_bind_return _ _ true) by done. cbn [negb].
      intros H. destruct (IH H) as [-> | (k' & Hk' & Hc' & ->)]; [by left |].
      right. exists k'. split; [by right | done].
    + rewrite (outcome_bind_return _ _ false) by done. cbn [negb].
      intros [= <-]. right. exists k. split; [by left | done].
    + rewrite (outcome_bind_raise _ _ e') by done. intros [= <-].
      left. destruct data; simpl in E; congruence.
Qed.

(** X6: the key check accepts a list that has the four key names among
    its elements, and a string in which they occur; indexing such a
    value by "disease" then raises TypeError, which leaves
    [classify_with_gemini]. *)
Theorem key_names_without_object text reply data :
  generate_content text = GeminiText reply ->
  outcome_of (parse_reply (strip reply)) = Return data ->
  (forall d, data <> JDict d) ->
  (forall k, k ∈ REQUIRED_KEYS -> contains k data = Return true) ->
  check_keys REQUIRED_KEYS data = ret tt /\
  outcome_of (classify_with_gemini generate_content text) = Raise TypeError.
Proof.
  intros Hg Hp Hd Hall. pose proof (check_keys_contained _ _ Hall) as Hc.
  split; [exact Hc |]. rewrite (classify_parsed _ _ _ _ Hg Hp).
  unfold validate. rewrite Hc.
  rewrite (outcome_bind_return _ _ tt) by done.
  destruct data; try done. by destruct (Hd d).
Qed.

(** X7: the dict returned has the four keys and no other, whatever keys
    the reply has, and its symptoms_line and action_line are the values
    of the reply, of any JSON type, unchanged. *)
Theorem classify_result_shape text r :
  outcome_of (classify_with_gemini generate_content text) = Return r ->
  exists reply d,
    generate_content text = GeminiText reply /\
    outcome_of (parse_reply (strip reply)) = Return (JDict d) /\
    (forall k, is_Some (r !! k) <-> k ∈ REQUIRED_KEYS) /\
    r !! py "symptoms_line" = d !! py "symptoms_line" /\
    r !! py "action_line" = d !! py "action_line".
Proof.
  intros Hc. apply classify_return in Hc as (reply & data & Hg & Hp & Hv).
  apply validate_return in Hv
    as (d & vd & vz & vs & va & -> & Hd & Hz & Hs & Ha & ->).
  exists reply, d. split; [done |]. split; [done |].
  rewrite clamped_symptoms_line, clamped_action_line, Hs, Ha.
  split; [| done]. intros k. split.
  - intros Hk. destruct (decide (k ∈ REQUIRED_KEYS)) as [|Hn]; [done |].
    rewrite (clamped_other _ _ _ _ _ Hn) in Hk. by destruct Hk.
  - unfold REQUIRED_KEYS. intros Hk.
    repeat (apply elem_of_cons in Hk as [-> | Hk]).
    + rewrite clamped_disease. eauto.
    + rewrite clamped_zone. eauto.
    + rewrite clamped_symptoms_line. eauto.
    + rewrite clamped_action_line. eauto.
    + by apply elem_of_nil in Hk.
Qed.

(** X8: when the reply parses to an object that has the four keys and
    whose zone is one of Red, Orange, Yellow, that zone is returned
    unchanged. *)
Theorem zone_in_list_unchanged text reply d z :
  generate_content text = GeminiText reply ->
  outcome_of (parse_reply (strip reply)) = Return (JDict d) ->
  (forall k, k ∈ REQUIRED_KEYS -> is_Some (d !! k)) ->
  d !! py "zone" = Some (JStr z) ->
  z ∈ ALLOWED_ZONES ->
  exists r,
    outcome_of (classify_with_gemini generate_content text) = Return r /\
    r !! py "zone" = Some (JStr z).
Proof.
  intros Hg Hp Hkeys Hz Hin.
  destruct (required_keys_lookup d Hkeys)
    as (vd & vz' & vs & va & Hd & Hz' & Hs & Ha).
  rewrite Hz in Hz'. injection Hz' as <-.
  exists (clamped vd (JStr z) vs va). split.
  - rewrite (classify_parsed _ _ _ _ Hg Hp).
    by rewrite (validate_dict _ _ _ _ _ Hd Hz Hs Ha).
  - rewrite clamped_zone.
    assert (in_strs (JStr z) ALLOWED_ZONES = true) as ->; [| done].
    apply in_strs_true. eauto.
Qed.

(** X9: whitespace before and after the reply of the model changes
    nothing: the same output and the same outcome. *)
Theorem reply_padding_ignored (padded_content : str -> gemini_reply)
    text reply w1 w2 :
  generate_content text = GeminiText reply ->
  padded_content text = GeminiText (w1 ++ reply ++ w2) ->
  forallb isspace w1 = true -> forallb isspace w2 = true ->
  classify_with_gemini padded_content text =
  classify_with_gemini generate_content text.
Proof.
  intros Hg Hp H1 H2. unfold classify_with_gemini, call_gemini.
  by rewrite Hg, Hp, (strip_padding _ _ _ H1 H2).
Qed.

(** X10: without a marker in the reply the fallback changes nothing: a
    reply that is not JSON is not rescued and the decoder's error leaves
    [classify_with_gemini]. *)
Theorem no_marker_no_rescue text reply :
  generate_content text = GeminiText reply ->
  occurs FENCE reply = false ->
  json_loads (strip reply) = None ->
  cleaned (strip reply) = strip reply /\
  outcome_of (classify_with_gemini generate_content text) =
    Raise JSONDecodeError.
Proof.
  intros Hg Hm Hj. pose proof (cleaned_plain _ Hm) as Hc.
  split; [exact Hc |]. rewrite (classify_outcome _ _ _ Hg).
  apply outcome_bind_raise. unfold parse_reply. by rewrite Hj, Hc, Hj.
Qed.

(** X11: an empty reply, or one of whitespace only, is not JSON: the
    decoder's error leaves [classify_with_gemini]. *)
Theorem blank_reply_fails text reply :
  generate_content text = GeminiText reply ->
  forallb isspace reply = true ->
  outcome_of (classify_with_gemini generate_content text) =
    Raise JSONDecodeError.
Proof.
  intros Hg Hw. rewrite (classify_outcome _ _ _ Hg).
  apply outcome_bind_raise. by rewrite (strip_all_space _ Hw).
Qed.

End FurtherFacts.

(** X12: validation is idempotent: the dict [validate] returns is
    validated to itself. *)
Theorem validate_idempotent data r :
  outcome_of (validate data) = Return r -> validate (JDict r) = ret r.
Proof.
  intros Hv. apply validate_return in Hv
    as (d & vd & vz & vs & va & _ & _ & _ & _ & _ & ->).
  rewrite (validate_dict _ _ _ _ _ (clamped_disease _ _ _ _)
             (clamped_zone _ _ _ _) (clamped_symptoms_line _ _ _ _)
             (clamped_action_line _ _ _ _)).
  unfold clamped.
  assert (in_strs (JStr DEFAULT_DISEASE) DISEASES = true) as Hd by reflexivity.
  assert (in_strs (JStr DEFAULT_ZONE) ALLOWED_ZONES = true) as Hz
    by reflexivity.
  by rewrite (clamp_idempotent vd _ _ Hd), (clamp_idempotent vz _ _ Hz).
Qed.

(** X13: a JSON text that holds no marker, wrapped in a code fence
    without a tag, parses to the value of the text. *)
Theorem plain_fenced_parses s v :
  json_loads s = Some v ->
  occurs FENCE s = false ->
  parse_reply (strip (plain_fenced s)) = ret v.
Proof.
  intros Hv Hs. rewrite strip_plain_fenced. unfold parse_reply.
  rewrite json_loads_plain_fenced, (cleaned_plain_fenced _ Hs).
  by rewrite (json_loads_strip _ _ Hv).
Qed.

(** ** The prompt and the list of diseases *)

Lemma occurs_in_prefix p s b :
  occurs p s = true -> occurs p (s ++ b) = true.
Proof.
  intros (u & v & ->)%occurs_iff. apply occurs_iff.
  exists u, (v ++ b). by rewrite <- !app_assoc.
Qed.

Lemma occurs_in_prompt p text :
  occurs p system_instructions = true -> occurs p (build_prompt text) = true.
Proof. intros H. unfold build_prompt. apply occurs_in_prefix. exact H. Qed.




Lemma prompt_heart_attack_item :
  occurs (py "11. Heart Attack (Myocardial Infarction) – ") system_instructions
  = true.
Proof. vm_compute. reflexivity. Qed.

Lemma prompt_heart_attack_not_listed :
  in_strs (JStr (py "Heart Attack (Myocardial Infarction)")) DISEASES = false.
Proof. vm_compute. reflexivity. Qed.

(** X15: the prompt lists its eleventh item as "Heart Attack (Myocardial
    Infarction)", which is not a string of [DISEASES]: a reply that
    names the disease as the prompt lists it is clamped to the default
    disease. *)
Theorem prompt_name_of_heart_attack_clamped
    (client : str -> str -> gemini_reply) text reply d :
  client GEMINI_MODEL_NAME (build_prompt text) = GeminiText reply ->
  outcome_of (parse_reply (strip reply)) = Return (JDict d) ->
  (forall k, k ∈ REQUIRED_KEYS -> is_Some (d !! k)) ->
  d !! py "disease" = Some (JStr (py "Heart Attack (Myocardial Infarction)")) ->
  occurs (py "11. Heart Attack (Myocardial Infarction) – ") (build_prompt text)
    = true /\
  exists r,
    outcome_of (classify_with_gemini (generate_with client) text) = Return r /\
    r !! py "disease" = Some (JStr (py "Viral Fever (without warning signs)")).
Proof.
  intros Hg Hp Hkeys Hd.
  split; [apply occurs_in_prompt; exact prompt_heart_attack_item |].
  destruct (required_keys_lookup d Hkeys)
    as (vd & vz & vs & va & Hd' & Hz & Hs & Ha).
  rewrite Hd in Hd'. injection Hd' as <-.
  eexists. split.
  - rewrite (classify_parsed (generate_with client) text reply (JDict d) Hg Hp).
    rewrite (validate_dict _ _ _ _ _ Hd Hz Hs Ha). reflexivity.
  - rewrite clamped_disease, prompt_heart_attack_not_listed. reflexivity.
Qed.





(** ** The label of a zone *)

(** X17: the label of a zone always starts with "Zone: " and holds the
    name of the zone; the zones with a label of their own in
    [ZONE_LABELS] are the three allowed zones, and any other zone gets
    the default label, "Zone: " and the zone. *)
Theorem zone_label_names_zone z :
  startswith (py "Zone: ") (zone_label_of z) = true /\
  occurs z (zone_label_of z) = true /\
  (is_Some (ZONE_LABELS !! z) <-> z ∈ ALLOWED_ZONES) /\
  (z ∉ ALLOWED_ZONES -> zone_label_of z = py "Zone: " ++ z).
Proof.
  unfold zone_label_of, ZONE_LABELS, ALLOWED_ZONES.
  destruct (decide (z = py "Yellow")) as [-> | Hy].
  { split; [vm_compute; reflexivity |]. split; [vm_compute; reflexivity |].
    split; [split; [intros _; by do 2 right; left | intros _; by eexists] |].
    intros Hn. destruct Hn. by do 2 right; left. }
  rewrite (lookup_insert_ne _ _ _ _ (not_eq_sym Hy)).
  destruct (decide (z = py "Orange")) as [-> | Ho].
  { split; [vm_compute; reflexivity |]. split; [vm_compute; reflexivity |].
    split; [split; [intros _; by right; left | intros _; by eexists] |].
    intros Hn. destruct Hn. by right; left. }
  rewrite (lookup_insert_ne _ _ _ _ (not_eq_sym Ho)).
  destruct (decide (z = py "Red")) as [-> | Hr].
  { split; [vm_compute; reflexivity |]. split; [vm_compute; reflexivity |].
    split; [split; [intros _; by left | intros _; by eexists] |].
    intros Hn. destruct Hn. by left. }
  rewrite (lookup_insert_ne _ _ _ _ (not_eq_sym Hr)), lookup_empty.
  cbn [default].
  split; [apply startswith_iff; by eexists |].
  split; [apply occurs_iff; exists (py "Zone: "), []; by rewrite app_nil_r |].
  split; [| done]. split; [by intros [? ?] |].
  intros Hz. repeat (apply elem_of_cons in Hz as [-> | Hz]; [done |]).
  by apply elem_of_nil in Hz.
Qed.

(** ** The further properties at concrete replies *)

Lemma gateway_failure_witness :
  let generate_content := fun _ : str => GeminiError (py "timeout") in
  let req := {| complaint := py "fever" |} in
  classify_with_gemini generate_content (complaint req) =
    ([Print [py "Gemini API error:"; py "timeout"]],
     Raise (RuntimeError (py "Gemini call failed"))) /\
  analyze generate_content req =
    ([Print [py "bhavana"];
      LogInfo (py "User Complaint: ") (JStr (complaint req));
      Print [py "Gemini API error:"; py "timeout"]],
     Raise (RuntimeError (py "Gemini call failed"))).
Proof.
  intros generate_content req.
  apply (gateway_failure generate_content req (py "timeout")).
  reflexivity.
Defined.

Lemma analyze_trace_witness :
  let generate_content := fun _ : str => GeminiText HEART_ATTACK_REPLY in
  let req := {| complaint := py "chest pain" |} in
  let r := reply_dict (JStr (py "Heart Attack")) (JStr (py "Red"))
                      (JStr (py "X")) (JStr (py "Y")) in
  exists z,
    r !! py "zone" = Some (JStr z) /\ z ∈ ALLOWED_ZONES /\
    analyze generate_content req =
      ([Print [py "bhavana"];
        LogInfo (py "User Complaint: ") (JStr (complaint req));
        LogInfo (py "AI Response Zone: ") (JStr z)],
       Raise (KeyError (py "patient_symptoms_line"))).
Proof.
  intros generate_content req r.
  apply (analyze_trace generate_content req r).
  vm_compute. reflexivity.
Defined.

Lemma validate_non_object_witness :
  outcome_of (validate (JList [])) = Raise TypeError \/
  exists k, k ∈ REQUIRED_KEYS /\
            contains k (JList []) = Return false /\
            outcome_of (validate (JList [])) =
              Raise (RuntimeError (py "Missing key in Gemini response: " ++ k)).
Proof.
  apply (validate_non_object (JList [])).
  intros d H. discriminate H.
Defined.

Lemma key_list_reply_parsed :
  outcome_of (parse_reply (strip KEY_LIST_REPLY)) =
  Return (JList [JStr (py "disease"); JStr (py "zone");
                 JStr (py "symptoms_line"); JStr (py "action_line")]).
Proof. vm_compute. reflexivity. Qed.

Lemma key_names_without_object_witness :
  check_keys REQUIRED_KEYS
    (JList [JStr (py "disease"); JStr (py "zone");
            JStr (py "symptoms_line"); JStr (py "action_line")]) = ret tt /\
  outcome_of (classify_with_gemini (fun _ => GeminiText KEY_LIST_REPLY)
                                   (py "fever")) = Raise TypeError.
Proof.
  apply (key_names_without_object (fun _ => GeminiText KEY_LIST_REPLY)
           (py "fever") KEY_LIST_REPLY _ eq_refl key_list_reply_parsed).
  - intros d H. discriminate H.
  - unfold REQUIRED_KEYS. intros k Hk.
    repeat (apply elem_of_cons in Hk as [-> | Hk]; [vm_compute; reflexivity |]).
    by apply elem_of_nil in Hk.
Defined.

Lemma classify_result_shape_witness :
  let generate_content := fun _ : str => GeminiText EXTRA_KEY_REPLY in
  let r := reply_dict (JStr (py "Stroke (CVA)")) (JStr (py "Orange"))
                      (JInt 7) (JList [JStr (py "a")]) in
  exists reply d,
    generate_content (py "weakness") = GeminiText reply /\
    outcome_of (parse_reply (strip reply)) = Return (JDict d) /\
    (forall k, is_Some (r !! k) <-> k ∈ REQUIRED_KEYS) /\
    r !! py "symptoms_line" = d !! py "symptoms_line" /\
    r !! py "action_line" = d !! py "action_line".
Proof.
  intros generate_content r.
  apply (classify_result_shape generate_content (py "weakness") r).
  vm_compute. reflexivity.
Defined.

Lemma zone_in_list_unchanged_witness :
  exists r,
    outcome_of (classify_with_gemini (fun _ => GeminiText HEART_ATTACK_REPLY)
                                     (py "chest pain")) = Return r /\
    r !! py "zone" = Some (JStr (py "Red")).
Proof.
  apply (zone_in_list_unchanged (fun _ => GeminiText HEART_ATTACK_REPLY)
           (py "chest pain") HEART_ATTACK_REPLY _ (py "Red") eq_refl
           heart_attack_reply_parsed).
  - apply reply_dict_has_keys.
  - vm_compute. reflexivity.
  - apply elem_of_strs. vm_compute. reflexivity.
Defined.

Lemma validate_idempotent_witness :
  validate (JDict (reply_dict (JStr DEFAULT_DISEASE) (JStr DEFAULT_ZONE)
                              (JStr (py "X")) (JStr (py "Y")))) =
  ret (reply_dict (JStr DEFAULT_DISEASE) (JStr DEFAULT_ZONE)
                  (JStr (py "X")) (JStr (py "Y"))).
Proof.
  apply (validate_idempotent
           (JDict (reply_dict (JStr (py "Flu")) (JStr (py "Critical"))
                              (JStr (py "X")) (JStr (py "Y"))))).
  vm_compute. reflexivity.
Defined.

Lemma reply_padding_ignored_witness :
  classify_with_gemini
    (fun _ => GeminiText ([32; 10] ++ HEART_ATTACK_REPLY ++ [10]))
    (py "chest pain") =
  classify_with_gemini (fun _ => GeminiText HEART_ATTACK_REPLY)
    (py "chest pain").
Proof.
  apply (reply_padding_ignored (fun _ => GeminiText HEART_ATTACK_REPLY)
           (fun _ => GeminiText ([32; 10] ++ HEART_ATTACK_REPLY ++ [10]))
           (py "chest pain") HEART_ATTACK_REPLY [32; 10] [10] eq_refl eq_refl).
  - reflexivity.
  - reflexivity.
Defined.

Lemma plain_fenced_parses_witness :
  parse_reply (strip (plain_fenced HEART_ATTACK_REPLY)) =
    ret (JDict (reply_dict (JStr (py "Heart Attack")) (JStr (py "Red"))
                           (JStr (py "X")) (JStr (py "Y")))).
Proof.
  apply (plain_fenced_parses HEART_ATTACK_REPLY).
  - vm_compute. reflexivity.
  - vm_compute. reflexivity.
Defined.

Lemma no_marker_no_rescue_witness :
  cleaned (strip PROSE_REPLY) = strip PROSE_REPLY /\
  outcome_of (classify_with_gemini (fun _ => GeminiText PROSE_REPLY)
                                   (py "fever")) = Raise JSONDecodeError.
Proof.
  apply (no_marker_no_rescue (fun _ => GeminiText PROSE_REPLY) (py "fever")
           PROSE_REPLY eq_refl).
  - vm_compute. reflexivity.
  - vm_compute. reflexivity.
Defined.

Lemma blank_reply_fails_witness :
  outcome_of (classify_with_gemini (fun _ => GeminiText [32; 10; 9])
                                   (py "fever")) = Raise JSONDecodeError.
Proof.
  apply (blank_reply_fails (fun _ => GeminiText [32; 10; 9]) (py "fever")
           [32; 10; 9] eq_refl).
  reflexivity.
Defined.


Lemma prompt_name_of_heart_attack_clamped_witness :
  let client := fun model _ : str =>
    if bool_decide (model = py "gemini-2.5-flash")
    then GeminiText PROMPT_NAME_REPLY
    else GeminiError (py "unknown model") in
  occurs (py "11. Heart Attack (Myocardial Infarction) – ")
         (build_prompt (py "chest pain")) = true /\
  exists r,
    outcome_of (classify_with_gemini (generate_with client) (py "chest pain"))
      = Return r /\
    r !! py "disease" = Some (JStr (py "Viral Fever (without warning signs)")).
Proof.
  intros client.
  apply (prompt_name_of_heart_attack_clamped client (py "chest pain")
           PROMPT_NAME_REPLY
           (reply_dict (JStr (py "Heart Attack (Myocardial Infarction)"))
                       (JStr (py "Red")) (JStr (py "X")) (JStr (py "Y")))).
  - vm_compute. reflexivity.
  - vm_compute. reflexivity.
  - apply reply_dict_has_keys.
  - vm_compute. reflexivity.
Defined.

